(** * Global-Med-Triage: orchestration core

    A shallow embedding of
      - [backend/agent_orchestrator.py]  (the fan-out aggregator),
      - [agents/translation_coordinator_agent.py],
        [agents/medical_office_triage_voice_agent.py] (two capability clients),
      - [backend/main.py]  ([save_triage_log], the [/ws/triage] handler),
      - [backend/coral_project/triage.py]  (persona hand-off and history
        truncation),
    followed by the properties of the specification, stated on that
    embedding. *)

From Stdlib.Strings Require Import Byte Ascii String.
From stdpp Require Import base option list strings pretty gmap.

Open Scope string_scope.
Open Scope list_scope.
Open Scope nat_scope.
Open Scope stdpp_scope.

(** ** Python values

    The capability providers exchange JSON-like data.  A [dict] literal is an
    association list in insertion order; [dict.get] returns the first
    binding of a key. *)

#[warnings="-register-all"]
Inductive value : Type :=
  | VNone
  | VBool (b : bool)
  | VInt (n : Z)
  | VStr (s : string)
  | VList (l : list value)
  | VDict (d : list (string * value)).

Definition bytes := list byte.

Fixpoint dict_get (key : string) (d : list (string * value)) : option value :=
  match d with
  | [] => None
  | (k, v) :: rest => if String.eqb k key then Some v else dict_get key rest
  end.

Definition dict_keys (d : list (string * value)) : list string := map fst d.

(** [type(v).__name__], as it appears in an [AttributeError] message. *)
Definition type_name (v : value) : string :=
  match v with
  | VNone => "NoneType"
  | VBool _ => "bool"
  | VInt _ => "int"
  | VStr _ => "str"
  | VList _ => "list"
  | VDict _ => "dict"
  end.

(** Python truth value: [None], [False], [0] and empty containers are falsy. *)
Definition truthy (v : value) : bool :=
  match v with
  | VNone => false
  | VBool b => b
  | VInt n => negb (n =? 0)%Z
  | VStr s => negb (String.eqb s "")
  | VList l => match l with [] => false | _ => true end
  | VDict d => match d with [] => false | _ => true end
  end.

(** ** Exceptions and results

    An exception (a subclass of [Exception]) is its class name and its
    [str()]; a call either returns or raises. *)

Record exn : Type := Exn { exn_class : string; exn_str : string }.

Inductive outcome (E A : Type) : Type :=
  | Ok (a : A)
  | Raise (e : E).
Arguments Ok {E A} a.
Arguments Raise {E A} e.

#[global] Instance outcome_ret {E} : MRet (outcome E) := λ A a, Ok a.
#[global] Instance outcome_bind {E} : MBind (outcome E) := λ A B f m,
  match m with
  | Ok a => f a
  | Raise e => Raise e
  end.

(** [try: body  except Exception as e: handler e] *)
Definition try_except {E A} (body : outcome E A) (handler : E → outcome E A)
  : outcome E A :=
  match body with
  | Ok a => Ok a
  | Raise e => handler e
  end.

Abbreviation result := (outcome exn).

Definition AttributeError (v : value) (attr : string) : exn :=
  Exn "AttributeError"
      ("'" +:+ type_name v +:+ "' object has no attribute '" +:+ attr +:+ "'").

(** [v.get(key, default)]: only a dict has the method. *)
Definition py_get (v : value) (key : string) (dflt : value) : result value :=
  match v with
  | VDict d => Ok (default dflt (dict_get key d))
  | _ => Raise (AttributeError v "get")
  end.

(** ** The capability providers

    Four providers ([voice_interface_agent], [medical_triage_agent],
    [vital_signs_monitor_agent], [insurance_verification_agent]) are remote
    services: each call returns a value or raises.  The two clients below
    them reach their service over HTTP; [http_post] is the request,
    [raise_for_status] and the JSON decoding of the reply taken together.
    [format_value] is the text an f-string substitutes for a value. *)

Inductive body : Type :=
  | JsonBody (v : value)
  | RawBody (b : bytes).

Record Env : Type := {
  format_value : value → string;
  transcribe_audio : bytes → string → result value;
  analyze_symptoms : value → value → result value;
  analyze_vitals : bytes → result value;
  verify_insurance : string → result value;
  MEDICAL_OFFICE_TRIAGE_API_URL : option string;
  http_post : string → body → result value;
}.

Module translation_coordinator_agent.

Definition url : string := "https://api.gemini.com/v1/translate".

Definition translate_medical (env : Env) (text : string) (target_language : value)
    : result value :=
    let payload := VDict [("q", VStr text); ("target", target_language)] in
    data ← http_post env url (JsonBody payload);
    py_get data "translatedText" (VStr text).

End translation_coordinator_agent.

Module medical_office_triage_voice_agent.

Definition collect_history (env : Env) (audio_bytes : bytes) : result value :=
    let url := default "http://coral_medicaloffice:8010/collect-history"
                       (MEDICAL_OFFICE_TRIAGE_API_URL env) in
    data ← http_post env url (RawBody audio_bytes);
    history ← py_get data "history" (VStr "No history found.");
    bytes_ ← py_get data "bytes" VNone;
    mret (VDict [("history", history); ("bytes", bytes_)]).

End medical_office_triage_voice_agent.

(** ** [agent_orchestrator.run_emergency_flow] *)

Module agent_orchestrator.
Section flow.
Context (env : Env).
Context (audio_bytes : bytes) (user_language : string).

  (** The guarded call of each [try] block, and the value its [except]
      branch assigns. *)

Definition voice_call : result value :=
    transcribe_audio env audio_bytes user_language.

Definition voice_fallback (e : exn) : value :=
    VDict [("text", VStr ""); ("language", VStr user_language);
           ("panic", VBool false);
           ("error", VStr ("voice_interface: " +:+ exn_str e))].

Definition triage_call (voice_result : value) : result value :=
    text ← py_get voice_result "text" (VStr "");
    language ← py_get voice_result "language" (VStr user_language);
    analyze_symptoms env text language.

Definition triage_fallback (e : exn) : value :=
    VDict [("esi_level", VInt 5); ("analysis", VStr "unavailable");
           ("error", VStr ("medical_triage: " +:+ exn_str e))].

Definition translation_call (voice_result triage_result : value) : result value :=
    esi ← py_get triage_result "esi_level" (VStr "unknown");
    language ← py_get voice_result "language" (VStr user_language);
    translation_coordinator_agent.translate_medical env
      ("ESI Level: " +:+ format_value env esi) language.

Definition translation_fallback (e : exn) : value :=
    VStr ("translation_error: " +:+ exn_str e).

Definition history_call : result value :=
    medical_office_triage_voice_agent.collect_history env audio_bytes.

Definition history_fallback (e : exn) : value :=
    VDict [("history", VStr "unavailable");
           ("error", VStr ("history_agent: " +:+ exn_str e))].

Definition vitals_call : result value :=
    analyze_vitals env audio_bytes.

Definition vitals_fallback (e : exn) : value :=
    VDict [("stress_level", VStr "unknown"); ("heart_rate", VInt 0);
           ("error", VStr ("vitals_agent: " +:+ exn_str e))].

Definition insurance_call : result value :=
    verify_insurance env "REPLACE_WITH_REAL_USER_ID".

Definition insurance_fallback (e : exn) : value :=
    VDict [("verified", VBool false); ("provider", VStr "Unknown");
           ("error", VStr ("insurance_agent: " +:+ exn_str e))].

Definition dispatch : value :=
    VDict [("status", VStr "pending"); ("location", VStr "unknown")].

Definition run_emergency_flow : result value :=
    voice_result ← try_except voice_call (λ e, mret (voice_fallback e));
    triage_result ← try_except (triage_call voice_result)
                               (λ e, mret (triage_fallback e));
    translation ← try_except (translation_call voice_result triage_result)
                             (λ e, mret (translation_fallback e));
    history ← try_except history_call (λ e, mret (history_fallback e));
    vitals ← try_except vitals_call (λ e, mret (vitals_fallback e));
    insurance ← try_except insurance_call (λ e, mret (insurance_fallback e));
    mret (VDict [("voice", voice_result);
                 ("triage", triage_result);
                 ("translation", translation);
                 ("history", history);
                 ("vitals", vitals);
                 ("dispatch", dispatch);
                 ("insurance", insurance)]).

End flow.
End agent_orchestrator.

(** ** [coral_project/triage.py]: conversation items and truncation *)

Module triage.

(** A conversation item is a chat message, a tool call or a tool result;
    [item_type] is its [type] attribute.  Only a message has a [role]. *)
Inductive ChatItem : Type :=
  | ChatMessage (id : string) (role : string) (content : string)
  | FunctionCall (id : string) (call_id name arguments : string)
  | FunctionCallOutput (id : string) (call_id output : string).

Definition item_id (item : ChatItem) : string :=
  match item with
  | ChatMessage id _ _ => id
  | FunctionCall id _ _ _ => id
  | FunctionCallOutput id _ _ => id
  end.

Definition item_type (item : ChatItem) : string :=
  match item with
  | ChatMessage _ _ _ => "message"
  | FunctionCall _ _ _ _ => "function_call"
  | FunctionCallOutput _ _ _ => "function_call_output"
  end.

(** [x in [a, b, ...]] on strings *)
Definition str_in (x : string) (l : list string) : bool :=
  existsb (String.eqb x) l.

(** [item.type == "message" and item.role == "system"] *)
Definition is_system_message (item : ChatItem) : bool :=
  String.eqb (item_type item) "message" &&
  match item with
  | ChatMessage _ role _ => String.eqb role "system"
  | _ => false
  end.

Definition is_function_item (item : ChatItem) : bool :=
  str_in (item_type item) ["function_call"; "function_call_output"].

Definition _valid_item (keep_system_message keep_function_call : bool)
  (item : ChatItem) : bool :=
  if negb keep_system_message && is_system_message item then false
  else if negb keep_function_call && is_function_item item then false
  else true.

(** The [for item in reversed(items)] loop: append when valid, then test the
    length and [break]. *)
Fixpoint collect (valid : ChatItem → bool) (keep_last_n_messages : Z)
  (rev_items new_items : list ChatItem) : list ChatItem :=
  match rev_items with
  | [] => new_items
  | item :: rest =>
      let new_items := if valid item then new_items ++ [item] else new_items in
      if (Z.of_nat (length new_items) >=? keep_last_n_messages)%Z
      then new_items
      else collect valid keep_last_n_messages rest new_items
  end.

(** [while new_items and new_items[0].type in [...]: new_items.pop(0)] *)
Fixpoint drop_leading_calls (new_items : list ChatItem) : list ChatItem :=
  match new_items with
  | [] => []
  | item :: rest =>
      if is_function_item item then drop_leading_calls rest else new_items
  end.

(** The list after [new_items = new_items[::-1]], before the [while] loop. *)
Definition collected (items : list ChatItem) (keep_last_n_messages : Z)
  (keep_system_message keep_function_call : bool) : list ChatItem :=
  reverse (collect (_valid_item keep_system_message keep_function_call)
                   keep_last_n_messages (reverse items) []).

Definition _truncate_chat_ctx (items : list ChatItem) (keep_last_n_messages : Z)
  (keep_system_message keep_function_call : bool) : list ChatItem :=
  drop_leading_calls
    (collected items keep_last_n_messages keep_system_message keep_function_call).

(** The lines of [on_enter] that copy the previous agent's history:
    [existing_ids = {item.id for item in chat_ctx.items}], the filtering
    comprehension and [chat_ctx.items.extend(items_copy)]. *)
Definition existing_ids (items : list ChatItem) : gset string :=
  list_to_set (item_id <$> items).

Definition extend_new (chat_ctx_items items_copy : list ChatItem) : list ChatItem :=
  let ids := existing_ids chat_ctx_items in
  chat_ctx_items ++ filter (λ item, item_id item ∉ ids) items_copy.

Definition copy_history (chat_ctx_items prev_items : list ChatItem) : list ChatItem :=
  extend_new chat_ctx_items (_truncate_chat_ctx prev_items 6 false true).

(** *** Agents and the session

    Agents are objects shared by reference: the registry [personas],
    [prev_agent] and the session's current agent all point into one store of
    agent objects, so a history written by [on_enter] is seen through
    every pointer to that agent. *)

Definition agent_ref := nat.

Record AgentObj : Type := {
  class_name : string;
  chat_ctx_items : list ChatItem;
}.

Record UserData : Type := {
  personas : gmap string agent_ref;
  prev_agent : option agent_ref;
}.

Definition summarize (userdata : UserData) : string :=
  "User data: Medical office triage system".

(** [room_attributes] is [None] when the job context has no room; [spoken]
    collects what [session.say] was asked to say. *)
Record Session : Type := {
  agents : gmap agent_ref AgentObj;
  userdata : UserData;
  current_agent : agent_ref;
  room_attributes : option (gmap string string);
  spoken : list string;
}.

Inductive LookupError : Type :=
  | KeyError (key : string).

Definition set_userdata (ud : UserData) (s : Session) : Session :=
  {| agents := agents s; userdata := ud; current_agent := current_agent s;
     room_attributes := room_attributes s; spoken := spoken s |}.

Definition set_current_agent (a : agent_ref) (s : Session) : Session :=
  {| agents := agents s; userdata := userdata s; current_agent := a;
     room_attributes := room_attributes s; spoken := spoken s |}.

Definition say (text : string) (s : Session) : Session :=
  {| agents := agents s; userdata := userdata s; current_agent := current_agent s;
     room_attributes := room_attributes s; spoken := spoken s ++ [text] |}.

(** [BaseAgent.on_enter]; [fresh_id] is the id [add_message] gives the new
    system message. *)
Definition on_enter (self : agent_ref) (fresh_id : string) (s : Session) : Session :=
  match agents s !! self with
  | None => s
  | Some obj =>
      let agent_name := class_name obj in
      let attrs := (λ m : gmap string string, <["agent" := agent_name]> m)
                     <$> room_attributes s in
      let chat_ctx := chat_ctx_items obj in
      let chat_ctx :=
        match prev_agent (userdata s) with
        | Some prev =>
            copy_history chat_ctx
              (default [] (chat_ctx_items <$> (agents s !! prev)))
        | None => chat_ctx
        end in
      let chat_ctx :=
        chat_ctx ++ [ChatMessage fresh_id "system"
                       ("You are the " +:+ agent_name +:+ ". "
                          +:+ summarize (userdata s))] in
      {| agents := <[self := {| class_name := agent_name;
                                chat_ctx_items := chat_ctx |}]> (agents s);
         userdata := userdata s; current_agent := current_agent s;
         room_attributes := attrs; spoken := spoken s |}
  end.

(** [BaseAgent._transfer_to_agent]: [userdata.personas[name]] raises
    [KeyError] before [prev_agent] is assigned. *)
Definition _transfer_to_agent (name : string) (s : Session)
  : outcome LookupError (agent_ref * Session) :=
  let ud := userdata s in
  let current := current_agent s in
  match personas ud !! name with
  | None => Raise (KeyError name)
  | Some next_agent =>
      Ok (next_agent,
          set_userdata {| personas := personas ud; prev_agent := Some current |} s)
  end.

Module TriageAgent.
Definition transfer_to_support (s : Session) :=
  _transfer_to_agent "support"
    (say "I'll transfer you to our Patient Support team who can help with your medical services request." s).
Definition transfer_to_billing (s : Session) :=
  _transfer_to_agent "billing"
    (say "I'll transfer you to our Medical Billing department who can assist with your insurance and payment questions." s).
End TriageAgent.

Module SupportAgent.
Definition transfer_to_triage (s : Session) :=
  _transfer_to_agent "triage"
    (say "I'll transfer you back to our Medical Office Triage agent who can better direct your inquiry." s).
Definition transfer_to_billing (s : Session) :=
  _transfer_to_agent "billing"
    (say "I'll transfer you to our Medical Billing department for assistance with your insurance and payment questions." s).
End SupportAgent.

Module BillingAgent.
Definition transfer_to_triage (s : Session) :=
  _transfer_to_agent "triage"
    (say "I'll transfer you back to our Medical Office Triage agent who can better direct your inquiry." s).
Definition transfer_to_support (s : Session) :=
  _transfer_to_agent "support"
    (say "I'll transfer you to our Patient Support team who can help with your medical services request." s).
End BillingAgent.

(** What the session runtime does with the agent a tool returns: it
    becomes the current agent and its [on_enter] runs.  An exception of the
    tool reaches the runtime instead, and nothing is entered. *)
Definition handoff (fresh_id : string)
  (r : outcome LookupError (agent_ref * Session)) : outcome LookupError Session :=
  p ← r;
  mret (on_enter p.1 fresh_id (set_current_agent p.1 p.2)).

(** [entrypoint]: the three agents, the registry, and [session.start] with
    the triage agent. *)
Definition triage_agent : agent_ref := 0.
Definition support_agent : agent_ref := 1.
Definition billing_agent : agent_ref := 2.

Definition entrypoint (has_room : bool) (fresh_id : string) : Session :=
  let userdata :=
    {| personas := {[ "triage" := triage_agent; "support" := support_agent;
                      "billing" := billing_agent ]};
       prev_agent := None |} in
  on_enter triage_agent fresh_id
    {| agents := {[ triage_agent := {| class_name := "TriageAgent"; chat_ctx_items := [] |};
                    support_agent := {| class_name := "SupportAgent"; chat_ctx_items := [] |};
                    billing_agent := {| class_name := "BillingAgent"; chat_ctx_items := [] |} ]};
       userdata := userdata;
       current_agent := triage_agent;
       room_attributes := if has_room then Some ∅ else None;
       spoken := [] |}.

End triage.

(** ** [backend/main.py]: persistence helper and the [/ws/triage] handler

    The database and the websocket are observed through the events the
    handler causes, in order.  A database call is recorded when it is
    attempted, whether or not it then fails. *)

Module main.

Inductive event : Type :=
  | DbConnect (db_url : string)
  | DbExecute (args : list value)
  | DbClose
  | WsSend (message : value).

Definition is_db_event (ev : event) : bool :=
  match ev with
  | WsSend _ => false
  | _ => true
  end.

(** What the surroundings answer: the environment variable, the three
    [asyncpg] calls, [utils.redact_pii], [json.dumps] and
    [base64.b64decode]. *)
Record Backend : Type := {
  DATABASE_URL : option string;
  connect : string → result unit;
  execute : list value → result unit;
  close : result unit;
  redact_pii : value → result value;
  json_dumps : value → result string;
  b64decode : string → result bytes;
}.

(** Computations that raise and leave a trace of events. *)
Definition M (A : Type) : Type := list event → result A * list event.

#[global] Instance M_ret : MRet M := λ A a t, (Ok a, t).
#[global] Instance M_bind : MBind M := λ A B f m t,
  match m t with
  | (Ok a, t') => f a t'
  | (Raise e, t') => (Raise e, t')
  end.

Definition lift {A} (r : result A) : M A := λ t, (r, t).

Definition emit (ev : event) : M unit := λ t, (Ok (), t ++ [ev]).

Definition try_exceptM {A} (body : M A) (handler : exn → M A) : M A := λ t,
  match body t with
  | (Ok a, t') => (Ok a, t')
  | (Raise e, t') => handler e t'
  end.

(** [try: body  finally: final]: [final] always runs; an exception of
    [final] replaces the outcome of [body]. *)
Definition try_finally {A} (body : M A) (final : M unit) : M A := λ t,
  match body t with
  | (r, t') =>
      match final t' with
      | (Ok _, t'') => (r, t'')
      | (Raise e, t'') => (Raise e, t'')
      end
  end.

(** [s.split(",")[-1]]: the text after the last comma. *)
Fixpoint last_segment_from (acc s : string) : string :=
  match s with
  | EmptyString => acc
  | String c rest =>
      if Ascii.eqb c ","%char then last_segment_from "" rest
      else last_segment_from (acc +:+ String c "") rest
  end.

Definition last_segment (s : string) : string := last_segment_from "" s.

Section handlers.
Context (env : Env) (be : Backend).

Definition save_triage_log (user_id language symptoms esi_level agent_responses : value)
  : M unit :=
  match DATABASE_URL be with
  | None => mret ()
  | Some db_url =>
      if String.eqb db_url "" then mret ()
      else
        conn ← try_exceptM (emit (DbConnect db_url) ;; lift (connect be db_url) ;;
                            mret (Some ()))
                           (λ _, mret None);
        match conn with
        | None => mret ()
        | Some _ =>
            try_finally
              (try_exceptM
                 (redacted ← (if truthy symptoms then lift (redact_pii be symptoms)
                              else mret VNone);
                  dumped ← lift (json_dumps be agent_responses);
                  emit (DbExecute [user_id; language; redacted; esi_level;
                                   VStr dumped]) ;;
                  lift (execute be [user_id; language; redacted; esi_level;
                                    VStr dumped]))
                 (λ _, mret ()))
              (emit DbClose ;; lift (close be))
        end
  end.

(** The inner [try] of [ws_triage]: read three fields off the result and
    save the log; [except Exception: pass]. *)
Definition persist (result : value) : M unit :=
  try_exceptM
    (voice ← lift (py_get result "voice" (VDict []));
     voice_text ← lift (py_get voice "text" (VStr ""));
     voice' ← lift (py_get result "voice" (VDict []));
     language ← lift (py_get voice' "language" (VStr "en"));
     triage_result ← lift (py_get result "triage" (VDict []));
     esi_level ← lift (py_get triage_result "esi_level" VNone);
     save_triage_log VNone language voice_text esi_level result)
    (λ _, mret ()).

(** One round of the [while True] loop of [ws_triage], for the message
    [data] just received. *)
Definition ws_triage_turn (data : value) : M unit :=
  audio_b64 ← lift (py_get data "audio" VNone);
  if negb (truthy audio_b64) then
    emit (WsSend (VDict [("error", VStr "No audio provided.")]))
  else
    try_exceptM
      (audio_bytes ← lift (match audio_b64 with
                           | VStr s => b64decode be (last_segment s)
                           | v => Raise (AttributeError v "split")
                           end);
       result ← lift (agent_orchestrator.run_emergency_flow env audio_bytes "auto");
       persist result ;;
       emit (WsSend result))
      (λ e, emit (WsSend (VDict [("error", VStr (exn_str e))]))).

End handlers.
End main.

(** ** Example surroundings *)

Module examples.
Import agent_orchestrator.

(** An instance of [format_value] for the examples below: exact on [None],
    booleans, integers and strings, which is all they format. *)
Definition format_scalar (v : value) : string :=
  match v with
  | VNone => "None"
  | VBool true => "True"
  | VBool false => "False"
  | VInt n => pretty n
  | VStr s => s
  | VList _ => "[...]"
  | VDict _ => "{...}"
  end.

Definition spoken_es : value :=
  VDict [("text", VStr "dolor en el pecho"); ("language", VStr "es");
         ("panic", VBool false)].

Definition esi2 : value :=
  VDict [("esi_level", VInt 2); ("analysis", VStr "emergent")].

Definition timed_out : exn := Exn "ConnectTimeout" "timed out".

(** Every provider answers, except the translation service. *)
Definition translation_down : Env := {|
  format_value := format_scalar;
  transcribe_audio := λ _ _, Ok spoken_es;
  analyze_symptoms := λ _ _, Ok esi2;
  analyze_vitals := λ _, Ok (VDict [("stress_level", VStr "high"); ("heart_rate", VInt 110)]);
  verify_insurance := λ _, Ok (VDict [("verified", VBool true); ("provider", VStr "Acme")]);
  MEDICAL_OFFICE_TRIAGE_API_URL := None;
  http_post := λ url _,
    if String.eqb url translation_coordinator_agent.url then Raise timed_out
    else Ok (VDict [("history", VStr "asthma")]);
|}.

(** No provider answers. *)
Definition all_down : Env := {|
  format_value := format_scalar;
  transcribe_audio := λ _ _, Raise timed_out;
  analyze_symptoms := λ _ _, Raise timed_out;
  analyze_vitals := λ _, Raise timed_out;
  verify_insurance := λ _, Raise timed_out;
  MEDICAL_OFFICE_TRIAGE_API_URL := None;
  http_post := λ _ _, Raise timed_out;
|}.

(** A backend whose database accepts the connection and then fails both
    the insertion and the closing of the connection. *)
Definition failing_database : main.Backend := {|
  main.DATABASE_URL := Some "postgres://db/triage";
  main.connect := λ _, Ok ();
  main.execute := λ _, Raise (Exn "PostgresError" "relation does not exist");
  main.close := Raise (Exn "InterfaceError" "connection is closed");
  main.redact_pii := λ v, Ok v;
  main.json_dumps := λ _, Ok "{}";
  main.b64decode := λ _, Ok [];
|}.

(** The history of the specification's scenario. *)
Definition sys : triage.ChatItem := triage.ChatMessage "0" "system" "You are the TriageAgent.".
Definition msg1 : triage.ChatItem := triage.ChatMessage "1" "user" "hi".
Definition tool_call2 : triage.ChatItem := triage.FunctionCall "2" "call" "lookup" "{}".
Definition tool_result3 : triage.ChatItem := triage.FunctionCallOutput "3" "call" "done".
Definition msg4 : triage.ChatItem := triage.ChatMessage "4" "assistant" "ok".
Definition scenario : list triage.ChatItem := [sys; msg1; tool_call2; tool_result3; msg4].

End examples.

(** ** The specification's reading of a degraded entry

    Section 7 of the specification: "only the presence of a failure marker
    field distinguishes a degraded capability from a successful one", and a
    failed capability keeps "a designated degraded value, e.g. [...] empty
    translation". *)

Module spec_reading.
Import agent_orchestrator.

Definition is_raise {E A} (r : outcome E A) : Prop :=
  match r with
  | Ok _ => False
  | Raise _ => True
  end.

(** An entry with an [error] field next to at least one value field. *)
Definition marked_degraded (v : value) : Prop :=
  ∃ d, v = VDict d ∧ is_Some (dict_get "error" d) ∧
       ∃ k, k ≠ "error" ∧ is_Some (dict_get k d).

(** An entry that is, or holds, the empty translation. *)
Definition carries_empty_translation (v : value) : Prop :=
  v = VStr "" ∨ ∃ d k, v = VDict d ∧ dict_get k d = Some (VStr "").

(** The composite result has the six capability entries, and the entry of
    each capability whose call raised is marked and degraded. *)
Definition failed_entries_marked_degraded (env : Env) (audio_bytes : bytes)
  (user_language : string) : Prop :=
  ∃ d voice triage translation history vitals insurance,
    run_emergency_flow env audio_bytes user_language = Ok (VDict d) ∧
    dict_get "voice" d = Some voice ∧
    dict_get "triage" d = Some triage ∧
    dict_get "translation" d = Some translation ∧
    dict_get "history" d = Some history ∧
    dict_get "vitals" d = Some vitals ∧
    dict_get "insurance" d = Some insurance ∧
    (is_raise (voice_call env audio_bytes user_language) → marked_degraded voice) ∧
    (is_raise (triage_call env user_language voice) → marked_degraded triage) ∧
    (is_raise (translation_call env user_language voice triage) →
       marked_degraded translation) ∧
    (is_raise (history_call env audio_bytes) → marked_degraded history) ∧
    (is_raise (vitals_call env audio_bytes) → marked_degraded vitals) ∧
    (is_raise (insurance_call env) → marked_degraded insurance).

End spec_reading.

(** ** Runs of a session

    The function tools an agent offers are the methods of its class; a
    run starts with [entrypoint] and continues with a tool of the current
    agent followed by the hand-off. *)

Module session_runs.
Import triage.

Definition tool : Type := Session → outcome LookupError (agent_ref * Session).

Definition tools_of (cls : string) : list tool :=
  if String.eqb cls "TriageAgent" then
    [TriageAgent.transfer_to_support; TriageAgent.transfer_to_billing]
  else if String.eqb cls "SupportAgent" then
    [SupportAgent.transfer_to_triage; SupportAgent.transfer_to_billing]
  else if String.eqb cls "BillingAgent" then
    [BillingAgent.transfer_to_triage; BillingAgent.transfer_to_support]
  else [].

Definition current_class (s : Session) : string :=
  default "" (class_name <$> agents s !! current_agent s).

Inductive reachable : Session → Prop :=
  | reach_start (has_room : bool) (fresh_id : string) :
      reachable (entrypoint has_room fresh_id)
  | reach_transfer (s s' : Session) (t : tool) (fresh_id : string) :
      reachable s →
      t ∈ tools_of (current_class s) →
      handoff fresh_id (t s) = Ok s' →
      reachable s'.

(** The registry [entrypoint] installs. *)
Definition registry : gmap string agent_ref :=
  {[ "triage" := triage_agent; "support" := support_agent;
     "billing" := billing_agent ]}.

Definition class_of (s : Session) (a : agent_ref) : option string :=
  class_name <$> agents s !! a.



(** What every session of a run keeps. *)
Record wired (s : Session) : Prop := {
  wired_registry : personas (userdata s) = registry;
  wired_triage : class_of s triage_agent = Some "TriageAgent";
  wired_support : class_of s support_agent = Some "SupportAgent";
  wired_billing : class_of s billing_agent = Some "BillingAgent";
  wired_current : current_agent s ∈ [triage_agent; support_agent; billing_agent];
  wired_prev : prev_agent (userdata s) ≠ Some (current_agent s);
}.


End session_runs.

(** ** [backend/vital_signs_agent/agent.py] *)

Module vital_signs_agent.

(** [analyze_vitals]: the three [except] clauses ([httpx.RequestError],
    [httpx.HTTPStatusError], [Exception]) return the same dict and differ
    only in the line they print, so one handler stands for them. *)
Definition analyze_vitals (env : Env) (ML_API_URL : option string)
  (audio_bytes : bytes) : result value :=
  let url := default "http://localhost:8000/mock-ml-api" ML_API_URL in
  try_except
    (data ← http_post env url (RawBody audio_bytes);
     stress_level ← py_get data "stress_level" (VStr "unknown");
     heart_rate ← py_get data "heart_rate" (VInt 0);
     mret (VDict [("stress_level", stress_level); ("heart_rate", heart_rate)]))
    (λ _, mret (VDict [("stress_level", VStr "unknown"); ("heart_rate", VInt 0)])).

End vital_signs_agent.

(** ** [coral_agents/translation_coral_agent.py] *)

Module translation_coral_agent.

Definition translate_text (env : Env) (TRANSLATION_API_URL : option string)
  (text source target : string) : result value :=
  let TRANSLATION_URL :=
    default "http://translation_service:8000/translate" TRANSLATION_API_URL in
  try_except
    (result ← http_post env TRANSLATION_URL
                (JsonBody (VDict [("text", VStr text); ("source", VStr source);
                                  ("target", VStr target)]));
     translated ← py_get result "translatedText" (VStr "");
     mret (VDict [("translatedText", translated); ("source", VStr source);
                  ("target", VStr target)]))
    (λ e, mret (VDict [("error", VStr (exn_str e))])).

End translation_coral_agent.

(** ** [backend/translation_service/main.py] *)

Module translation_service.

(** The language model: [generate_text] is [GenerativeModel(...)],
    [generate_content(prompt)] and the reading of [response.text] taken
    together; [strip] is [str.strip]. *)
Record Gemini : Type := {
  generate_text : string → result string;
  strip : string → string;
}.

Record TranslationRequest : Type := {
  text : string;
  source : string;
  target : string;
}.

Record HTTPException : Type := {
  status_code : nat;
  detail : string;
}.

Definition newline : string := String (Ascii.ascii_of_nat 10) "".

Definition translate_text (gemini : Gemini) (req : TranslationRequest)
  : outcome HTTPException value :=
  let prompt := "Translate this text from " +:+ source req +:+ " to "
                  +:+ target req +:+ ":" +:+ newline +:+ text req in
  match generate_text gemini prompt with
  | Ok response_text =>
      Ok (VDict [("translated_text", VStr (strip gemini response_text))])
  | Raise e =>
      Raise {| status_code := 500;
               detail := "Translation failed: " +:+ exn_str e |}
  end.

End translation_service.

(** ** [backend/main.py]: the REST endpoint [/api/triage] *)

Module main_rest.
Import main.

Section endpoint.
Context (env : Env) (be : Backend).
(** The [TypeError] of [v['esi_level']] for a [v] that is not a dict. *)
Context (subscript_error : value → exn).

(** [triage_result['esi_level']] *)
Definition esi_level_item (triage_result : value) : result value :=
  match triage_result with
  | VDict d =>
      match dict_get "esi_level" d with
      | Some v => Ok v
      | None => Raise (Exn "KeyError" "'esi_level'")
      end
  | v => Raise (subscript_error v)
  end.

(** [triage]: [symptoms] and [language] are the fields of the validated
    request ([language] is a string or [None]). *)
Definition triage (symptoms : string) (language : value) : M value :=
  let voice_result :=
    VDict [("text", VStr symptoms); ("language", language); ("panic", VBool false)] in
  triage_result ← lift (analyze_symptoms env (VStr symptoms) language);
  esi ← lift (esi_level_item triage_result);
  translation ← lift (translation_coordinator_agent.translate_medical env
                        ("ESI Level: " +:+ format_value env esi) language);
  let history := VDict [("history", VStr "No audio provided.")] in
  let vitals := VDict [("stress_level", VStr "unknown"); ("heart_rate", VInt 0)] in
  let dispatch := VDict [("status", VStr "pending"); ("location", VStr "unknown")] in
  let insurance := VDict [("verified", VBool false); ("provider", VStr "Unknown")] in
  let aggregated :=
    VDict [("voice", voice_result); ("triage", triage_result);
           ("translation", translation); ("history", history);
           ("vitals", vitals); ("dispatch", dispatch);
           ("insurance", insurance)] in
  try_exceptM
    (esi_level ← lift (py_get triage_result "esi_level" VNone);
     save_triage_log be VNone language (VStr symptoms) esi_level aggregated)
    (λ _, mret ()) ;;
  mret aggregated.

End endpoint.
End main_rest.

(** ** Text helpers for the statements *)

Module text.

Fixpoint contains_comma (s : string) : bool :=
  match s with
  | EmptyString => false
  | String c rest => Ascii.eqb c ","%char || contains_comma rest
  end.

End text.

(** ** More example surroundings *)

Module more_examples.
Import examples.


(** A backend without database whose decoder rejects the audio. *)
Definition undecodable : main.Backend := {|
  main.DATABASE_URL := None;
  main.connect := λ _, Ok ();
  main.execute := λ _, Ok ();
  main.close := Ok ();
  main.redact_pii := λ v, Ok v;
  main.json_dumps := λ _, Ok "{}";
  main.b64decode := λ _, Raise (Exn "Error" "Incorrect padding");
|}.

Definition not_subscriptable (v : value) : exn :=
  Exn "TypeError" ("'" +:+ type_name v +:+ "' object is not subscriptable").

(** A model that answers, and the service behind the coral agent's URL. *)
Definition gemini_hola : translation_service.Gemini := {|
  translation_service.generate_text := λ _, Ok "hola ";
  translation_service.strip := λ _, "hola";
|}.

Definition hello_request : translation_service.TranslationRequest := {|
  translation_service.text := "hello";
  translation_service.source := "en";
  translation_service.target := "es";
|}.

Definition served_by_service : Env := {|
  format_value := format_scalar;
  transcribe_audio := λ _ _, Raise timed_out;
  analyze_symptoms := λ _ _, Raise timed_out;
  analyze_vitals := λ _, Raise timed_out;
  verify_insurance := λ _, Raise timed_out;
  MEDICAL_OFFICE_TRIAGE_API_URL := None;
  http_post := λ _ _, Ok (VDict [("translated_text", VStr "hola")]);
|}.

End more_examples.

(** * Properties *)

(** ** History truncation *)

Module truncation_props.
Import triage.

Lemma drop_leading_calls_head (l : list ChatItem) (item : ChatItem) :
  head (drop_leading_calls l) = Some item → is_function_item item = false.
Proof.
  induction l as [|x l IH]; simpl; [done|].
  destruct (is_function_item x) eqn:Hx; [exact IH|].
  simpl. intros [= <-]. exact Hx.
Qed.

Lemma is_function_item_message (item : ChatItem) :
  is_function_item item = false → item_type item = "message".
Proof. by destruct item. Qed.

Lemma drop_leading_calls_length (l : list ChatItem) :
  length (drop_leading_calls l) ≤ length l.
Proof.
  induction l as [|x l IH]; simpl; [lia|].
  destruct (is_function_item x); simpl; lia.
Qed.

Lemma collect_length valid (n : Z) (rev_items new_items : list ChatItem) :
  (1 ≤ n)%Z → (Z.of_nat (length new_items) < n)%Z →
  (Z.of_nat (length (collect valid n rev_items new_items)) ≤ n)%Z.
Proof.
  intros Hn. revert new_items.
  induction rev_items as [|x l IH]; intros acc Hacc; simpl; [lia|].
  destruct (valid x).
  - destruct (Z.geb_spec (Z.of_nat (length (acc ++ [x]))) n) as [Hge|Hlt].
    + rewrite length_app in *. simpl in *. lia.
    + apply IH. lia.
  - destruct (Z.geb_spec (Z.of_nat (length acc)) n) as [Hge|Hlt]; [lia|].
    by apply IH.
Qed.

Lemma collect_valid valid (n : Z) (rev_items new_items : list ChatItem) :
  Forall (λ x, valid x = true) new_items →
  Forall (λ x, valid x = true) (collect valid n rev_items new_items).
Proof.
  revert new_items.
  induction rev_items as [|x l IH]; intros acc Hacc; simpl; [done|].
  destruct (valid x) eqn:Hx.
  - assert (Forall (λ x, valid x = true) (acc ++ [x])) as H'.
    { apply Forall_app; split; [done|]. by constructor. }
    destruct (_ >=? _)%Z; [done|]. by apply IH.
  - destruct (_ >=? _)%Z; [done|]. by apply IH.
Qed.

End truncation_props.

Module truncation_claims.
Import triage examples truncation_props.

Lemma scenario_collected :
  collected scenario 3 false true = [tool_call2; tool_result3; msg4].
Proof. reflexivity. Qed.

(** C2, as stated: on the scenario history with keepLastN = 3, keepSystem =
    false, keepToolCalls = true the function would return the three items
    [tool_call(2); tool_result(3); msg(4)].  It does not: these are the
    items collected, and the [while] loop then removes the two leading
    tool items. *)
Lemma C2_scenario_not_three_items :
  _truncate_chat_ctx scenario 3 false true ≠ [tool_call2; tool_result3; msg4].
Proof. vm_compute. discriminate. Qed.

(** C2, amended: on the scenario history with keepLastN = 3, keepSystem =
    false, keepToolCalls = true, the three items collected are
    [tool_call(2); tool_result(3); msg(4)], the [while] loop drops the two
    leading tool items, and [_truncate_chat_ctx] returns exactly [msg(4)]. *)
Theorem C2_scenario_result :
  collected scenario 3 false true = [tool_call2; tool_result3; msg4] ∧
  drop_leading_calls [tool_call2; tool_result3; msg4] = [msg4] ∧
  _truncate_chat_ctx scenario 3 false true = [msg4].
Proof.
  split; [exact scenario_collected|].
  split; [reflexivity|].
  unfold _truncate_chat_ctx. by rewrite scenario_collected.
Qed.

(** C4: whatever the items and the three parameters, the first item of the
    list [_truncate_chat_ctx] returns, when there is one, is neither a
    [function_call] nor a [function_call_output]: it is a message. *)
Theorem C4_no_leading_tool_item
  (items : list ChatItem) (keep_last_n_messages : Z)
  (keep_system_message keep_function_call : bool) (first : ChatItem) :
  head (_truncate_chat_ctx items keep_last_n_messages
          keep_system_message keep_function_call) = Some first →
  item_type first ≠ "function_call" ∧
  item_type first ≠ "function_call_output" ∧
  item_type first = "message".
Proof.
  intros H. apply drop_leading_calls_head, is_function_item_message in H.
  rewrite H. by repeat split.
Qed.

Lemma C4_no_leading_tool_item_witness :
  head (_truncate_chat_ctx scenario 3 false true) = Some msg4 ∧
  item_type msg4 = "message".
Proof.
  split; [reflexivity|].
  apply (C4_no_leading_tool_item scenario 3 false true msg4). reflexivity.
Defined.

(** The bound holds from one item on. *)
Lemma truncate_length_le (items : list ChatItem) (n : Z) (ks kf : bool) :
  (1 ≤ n)%Z →
  (Z.of_nat (length (collected items n ks kf)) ≤ n)%Z ∧
  Forall (λ x, _valid_item ks kf x = true) (collected items n ks kf) ∧
  (Z.of_nat (length (_truncate_chat_ctx items n ks kf)) ≤ n)%Z.
Proof.
  intros Hn.
  assert (Z.of_nat (length (collected items n ks kf)) ≤ n)%Z as Hc.
  { unfold collected. rewrite length_reverse.
    apply collect_length; simpl; lia. }
  split; [done|]. split.
  - unfold collected. apply Forall_reverse, collect_valid. constructor.
  - unfold _truncate_chat_ctx.
    pose proof (drop_leading_calls_length (collected items n ks kf)). lia.
Qed.

(** C5, at keepLastN = 0: a one-message history has length 1 ≥ 0, and both
    the collection phase and the final output keep that message, one item
    more than keepLastN.  The loop tests the length only after appending. *)
Theorem C5_zero_keeps_one_item :
  let items := [msg1] in
  let n := 0%Z in
  (n ≤ Z.of_nat (length items))%Z ∧
  collected items n false false = [msg1] ∧
  _truncate_chat_ctx items n false false = [msg1] ∧
  ¬ (Z.of_nat (length (_truncate_chat_ctx items n false false)) ≤ n)%Z.
Proof.
  cbv zeta. split; [simpl; lia|]. do 2 (split; [reflexivity|]).
  change (_truncate_chat_ctx [msg1] 0 false false) with [msg1]. simpl. lia.
Qed.

End truncation_claims.

(** ** Copying history into the entered agent *)

Module merge_claims.
Import triage.

Lemma existing_ids_spec (items : list ChatItem) (id : string) :
  id ∈ existing_ids items ↔ ∃ item, item ∈ items ∧ item_id item = id.
Proof.
  unfold existing_ids. rewrite elem_of_list_to_set, list_elem_of_fmap.
  split; [intros (x & -> & Hx)|intros (x & Hx & <-)]; eauto.
Qed.

(** After one copy every id of the copied items is present. *)
Lemma extend_new_covers (dest items_copy : list ChatItem) (item : ChatItem) :
  item ∈ items_copy → item_id item ∈ existing_ids (extend_new dest items_copy).
Proof.
  intros Hin. unfold extend_new.
  destruct (decide (item_id item ∈ existing_ids dest)) as [Hd|Hd].
  - apply existing_ids_spec in Hd as (x & Hx & Hid).
    apply existing_ids_spec. exists x. split; [|done].
    apply elem_of_app. by left.
  - apply existing_ids_spec. exists item. split; [|done].
    apply elem_of_app. right. by apply list_elem_of_filter.
Qed.

Lemma filter_none {A} (P : A → Prop) `{!∀ x, Decision (P x)} (l : list A) :
  (∀ x, x ∈ l → ¬ P x) → filter P l = [].
Proof.
  induction l as [|x l IH]; intros Hl; [done|].
  rewrite filter_cons_False by (apply Hl; left).
  apply IH. intros y Hy. apply Hl. by right.
Qed.

Lemma extend_new_twice (dest items_copy : list ChatItem) :
  extend_new (extend_new dest items_copy) items_copy = extend_new dest items_copy.
Proof.
  unfold extend_new at 1.
  replace (filter _ items_copy) with (@nil ChatItem); [by rewrite app_nil_r|].
  symmetry. apply filter_none. intros item Hin Hnot.
  apply Hnot. by apply extend_new_covers.
Qed.

(** C6: copying the truncated history of the same source into a
    destination a second time changes nothing: the id filter of [on_enter]
    removes every item the first copy appended, so no entry appears
    twice. *)
Theorem C6_copy_history_idempotent (dest source : list ChatItem) :
  copy_history (copy_history dest source) source = copy_history dest source.
Proof. apply extend_new_twice. Qed.

End merge_claims.

(** ** Persona transfer *)

Module transfer_claims.
Import triage.

Lemma on_enter_current_agent (self : agent_ref) (fresh_id : string) (s : Session) :
  current_agent (on_enter self fresh_id s) = current_agent s.
Proof. unfold on_enter. by destruct (agents s !! self). Qed.

Lemma on_enter_userdata (self : agent_ref) (fresh_id : string) (s : Session) :
  userdata (on_enter self fresh_id s) = userdata s.
Proof. unfold on_enter. by destruct (agents s !! self). Qed.

Lemma transfer_registered (name : string) (s : Session) (a : agent_ref) :
  personas (userdata s) !! name = Some a →
  _transfer_to_agent name s =
    Ok (a, set_userdata {| personas := personas (userdata s);
                           prev_agent := Some (current_agent s) |} s).
Proof. intros H. unfold _transfer_to_agent. by rewrite H. Qed.

Lemma transfer_unregistered (name : string) (s : Session) :
  personas (userdata s) !! name = None →
  _transfer_to_agent name s = Raise (KeyError name).
Proof. intros H. unfold _transfer_to_agent. by rewrite H. Qed.

(** A registered transfer followed by the runtime's hand-off. *)
Lemma handoff_registered (name : string) (s : Session) (a : agent_ref)
  (fresh_id : string) :
  personas (userdata s) !! name = Some a →
  ∃ s', handoff fresh_id (_transfer_to_agent name s) = Ok s' ∧
        current_agent s' = a ∧
        prev_agent (userdata s') = Some (current_agent s) ∧
        personas (userdata s') = personas (userdata s).
Proof.
  intros H. rewrite (transfer_registered _ _ _ H).
  eexists. split; [reflexivity|]. simpl.
  by rewrite on_enter_current_agent, on_enter_userdata.
Qed.

(** C7: in a session whose registry holds a triage and a billing persona and
    whose current agent is the triage one, the tool [transfer_to_billing]
    returns the agent registered as "billing"; after the hand-off that agent
    is the current one and [prev_agent] is the triage agent.  The billing
    agent's [transfer_to_triage] then makes the triage agent current again,
    with [prev_agent] the billing agent. *)
Theorem C7_transfer_there_and_back
  (s : Session) (triage_ref billing_ref : agent_ref) (id1 id2 : string) :
  personas (userdata s) !! "triage" = Some triage_ref →
  personas (userdata s) !! "billing" = Some billing_ref →
  current_agent s = triage_ref →
  ∃ s0 s1 s2,
    TriageAgent.transfer_to_billing s = Ok (billing_ref, s0) ∧
    handoff id1 (TriageAgent.transfer_to_billing s) = Ok s1 ∧
    current_agent s1 = billing_ref ∧
    prev_agent (userdata s1) = Some triage_ref ∧
    handoff id2 (BillingAgent.transfer_to_triage s1) = Ok s2 ∧
    current_agent s2 = triage_ref ∧
    prev_agent (userdata s2) = Some billing_ref.
Proof.
  intros Ht Hb Hcur.
  unfold TriageAgent.transfer_to_billing, BillingAgent.transfer_to_triage.
  set (sa := say _ s).
  assert (personas (userdata sa) !! "billing" = Some billing_ref) as Hb' by done.
  destruct (handoff_registered "billing" sa billing_ref id1 Hb')
    as (s1 & Hs1 & Hc1 & Hp1 & Hr1).
  eexists _, s1. 
  set (sb := say _ s1).
  assert (personas (userdata sb) !! "triage" = Some triage_ref) as Ht'.
  { simpl. rewrite Hr1. exact Ht. }
  destruct (handoff_registered "triage" sb triage_ref id2 Ht')
    as (s2 & Hs2 & Hc2 & Hp2 & Hr2).
  exists s2. split; [by apply transfer_registered|].
  split; [done|]. split; [done|].
  split; [by rewrite Hp1; simpl; rewrite Hcur|].
  split; [done|]. split; [done|].
  rewrite Hp2. simpl. by rewrite Hc1.
Qed.

Lemma C7_transfer_there_and_back_witness :
  ∃ s0 s1 s2,
    TriageAgent.transfer_to_billing (entrypoint true "item_0") = Ok (billing_agent, s0) ∧
    handoff "item_1" (TriageAgent.transfer_to_billing (entrypoint true "item_0")) = Ok s1 ∧
    current_agent s1 = billing_agent ∧
    prev_agent (userdata s1) = Some triage_agent ∧
    handoff "item_2" (BillingAgent.transfer_to_triage s1) = Ok s2 ∧
    current_agent s2 = triage_agent ∧
    prev_agent (userdata s2) = Some billing_agent.
Proof.
  apply (C7_transfer_there_and_back (entrypoint true "item_0")
           triage_agent billing_agent "item_1" "item_2");
    reflexivity.
Defined.

(** C8: a transfer to a name that is not in the registry raises [KeyError]
    with that name, nothing is entered and no other agent is substituted;
    a transfer to a registered name returns the agent registered under
    it. *)
Theorem C8_unregistered_transfer_raises (name : string) (s : Session)
  (fresh_id : string) :
  (personas (userdata s) !! name = None ↔
     _transfer_to_agent name s = Raise (KeyError name)) ∧
  (personas (userdata s) !! name = None →
     handoff fresh_id (_transfer_to_agent name s) = Raise (KeyError name)) ∧
  (∀ a, personas (userdata s) !! name = Some a ↔
     ∃ s', _transfer_to_agent name s = Ok (a, s')).
Proof.
  split; [|split].
  - split; [apply transfer_unregistered|].
    unfold _transfer_to_agent. by destruct (personas (userdata s) !! name).
  - intros H. by rewrite transfer_unregistered.
  - intros a. split.
    + intros H. eexists. by apply transfer_registered.
    + intros [s' H]. unfold _transfer_to_agent in H.
      destruct (personas (userdata s) !! name); by inversion H.
Qed.

Lemma C8_unregistered_transfer_raises_witness :
  _transfer_to_agent "pharmacy" (entrypoint true "item_0") = Raise (KeyError "pharmacy") ∧
  handoff "item_1" (_transfer_to_agent "pharmacy" (entrypoint true "item_0"))
    = Raise (KeyError "pharmacy") ∧
  ∃ s', _transfer_to_agent "support" (entrypoint true "item_0") = Ok (support_agent, s').
Proof.
  pose proof (C8_unregistered_transfer_raises "pharmacy" (entrypoint true "item_0") "item_1")
    as (Hraise & Hhand & _).
  pose proof (C8_unregistered_transfer_raises "support" (entrypoint true "item_0") "item_1")
    as (_ & _ & Hok).
  split; [apply Hraise; reflexivity|].
  split; [apply Hhand; reflexivity|].
  apply Hok. reflexivity.
Defined.

End transfer_claims.

(** ** The aggregator *)

Module orchestrator_claims.
Import agent_orchestrator examples spec_reading.

(** The value a guarded call leaves in its variable. *)
Lemma try_except_settles {E A} (call : outcome E A) (fallback : E → A) :
  ∃ a, try_except call (λ e, mret (fallback e)) = Ok a ∧
       (∀ x, call = Ok x → a = x) ∧
       (∀ e, call = Raise e → a = fallback e).
Proof.
  destruct call as [x|e]; simpl; eexists; (split; [reflexivity|]);
    split; congruence.
Qed.

(** [run_emergency_flow] always returns, and each of its seven entries is
    the answer of the capability or the value of its [except] branch. *)
Lemma flow_entries (env : Env) (audio_bytes : bytes) (user_language : string) :
  ∃ voice triage translation history vitals insurance,
    run_emergency_flow env audio_bytes user_language =
      Ok (VDict [("voice", voice); ("triage", triage);
                 ("translation", translation); ("history", history);
                 ("vitals", vitals); ("dispatch", dispatch);
                 ("insurance", insurance)]) ∧
    ((∀ x, voice_call env audio_bytes user_language = Ok x → voice = x) ∧
     (∀ e, voice_call env audio_bytes user_language = Raise e →
           voice = voice_fallback user_language e)) ∧
    ((∀ x, triage_call env user_language voice = Ok x → triage = x) ∧
     (∀ e, triage_call env user_language voice = Raise e →
           triage = triage_fallback e)) ∧
    ((∀ x, translation_call env user_language voice triage = Ok x → translation = x) ∧
     (∀ e, translation_call env user_language voice triage = Raise e →
           translation = translation_fallback e)) ∧
    ((∀ x, history_call env audio_bytes = Ok x → history = x) ∧
     (∀ e, history_call env audio_bytes = Raise e → history = history_fallback e)) ∧
    ((∀ x, vitals_call env audio_bytes = Ok x → vitals = x) ∧
     (∀ e, vitals_call env audio_bytes = Raise e → vitals = vitals_fallback e)) ∧
    ((∀ x, insurance_call env = Ok x → insurance = x) ∧
     (∀ e, insurance_call env = Raise e → insurance = insurance_fallback e)).
Proof.
  unfold run_emergency_flow.
  destruct (try_except_settles (voice_call env audio_bytes user_language)
              (voice_fallback user_language)) as (voice & -> & Hv).
  destruct (try_except_settles (triage_call env user_language voice)
              triage_fallback) as (triage & Ht1 & Ht).
  destruct (try_except_settles (translation_call env user_language voice triage)
              translation_fallback) as (translation & Hl1 & Hl).
  destruct (try_except_settles (history_call env audio_bytes)
              history_fallback) as (history & Hh1 & Hh).
  destruct (try_except_settles (vitals_call env audio_bytes)
              vitals_fallback) as (vitals & Hs1 & Hs).
  destruct (try_except_settles (insurance_call env)
              insurance_fallback) as (insurance & Hi1 & Hi).
  exists voice, triage, translation, history, vitals, insurance.
  split; [|done].
  simpl. rewrite Ht1. simpl. rewrite Hl1. simpl. rewrite Hh1. simpl.
  rewrite Hs1. simpl. by rewrite Hi1.
Qed.

End orchestrator_claims.

Module orchestrator_theorems.
Import agent_orchestrator examples spec_reading orchestrator_claims.

Lemma marked_degraded_intro (fields : list (string * value)) (k : string) :
  is_Some (dict_get "error" fields) → k ≠ "error" → is_Some (dict_get k fields) →
  marked_degraded (VDict fields).
Proof. intros He Hk Hv. exists fields. split; [done|]. split; [done|]. by exists k. Qed.

Lemma string_not_marked_degraded (s : string) : ¬ marked_degraded (VStr s).
Proof. by intros (d & Hd & _). Qed.

(** At [translation_down] the flow returns this composite result. *)
Lemma translation_down_result :
  run_emergency_flow translation_down [] "auto" =
    Ok (VDict [("voice", spoken_es); ("triage", esi2);
               ("translation", VStr "translation_error: timed out");
               ("history", VDict [("history", VStr "asthma"); ("bytes", VNone)]);
               ("vitals", VDict [("stress_level", VStr "high"); ("heart_rate", VInt 110)]);
               ("dispatch", dispatch);
               ("insurance", VDict [("verified", VBool true); ("provider", VStr "Acme")])]).
Proof. reflexivity. Qed.

(** C1, as stated: every failed capability's entry would carry a failure
    marker and a degraded default value.  With only the translation service
    failing, the translation entry is the bare string
    ["translation_error: timed out"]: no marker field, no degraded value. *)
Lemma C1_translation_entry_is_bare_string :
  ¬ failed_entries_marked_degraded translation_down [] "auto".
Proof.
  intros (d & voice & triage & translation & history & vitals & insurance
          & Hrun & Hv & Ht & Hl & _ & _ & _ & _ & _ & Hmark & _).
  rewrite translation_down_result in Hrun. injection Hrun as <-.
  vm_compute in Hv, Ht, Hl.
  injection Hv as <-. injection Ht as <-. injection Hl as <-.
  apply (string_not_marked_degraded "translation_error: timed out").
  apply Hmark. exact I.
Qed.

(** C1, amended: for every input and whichever of the six calls raise,
    [run_emergency_flow] returns (it never raises) a composite result with
    an entry for each of the six capabilities and for [dispatch].  The
    entry of a failed voice, triage, history, vitals or insurance call is
    the dict of that capability's default fields with an [error] field
    naming the capability and the cause; the entry of a failed translation
    call is the string "translation_error: <cause>" alone. *)
Theorem C1_flow_returns_with_all_entries
  (env : Env) (audio_bytes : bytes) (user_language : string) :
  ∃ voice triage translation history vitals insurance,
    run_emergency_flow env audio_bytes user_language =
      Ok (VDict [("voice", voice); ("triage", triage);
                 ("translation", translation); ("history", history);
                 ("vitals", vitals); ("dispatch", dispatch);
                 ("insurance", insurance)]) ∧
    (∀ e, voice_call env audio_bytes user_language = Raise e →
       voice = VDict [("text", VStr ""); ("language", VStr user_language);
                      ("panic", VBool false);
                      ("error", VStr ("voice_interface: " +:+ exn_str e))] ∧
       marked_degraded voice) ∧
    (∀ e, triage_call env user_language voice = Raise e →
       triage = VDict [("esi_level", VInt 5); ("analysis", VStr "unavailable");
                       ("error", VStr ("medical_triage: " +:+ exn_str e))] ∧
       marked_degraded triage) ∧
    (∀ e, translation_call env user_language voice triage = Raise e →
       translation = VStr ("translation_error: " +:+ exn_str e)) ∧
    (∀ e, history_call env audio_bytes = Raise e →
       history = VDict [("history", VStr "unavailable");
                        ("error", VStr ("history_agent: " +:+ exn_str e))] ∧
       marked_degraded history) ∧
    (∀ e, vitals_call env audio_bytes = Raise e →
       vitals = VDict [("stress_level", VStr "unknown"); ("heart_rate", VInt 0);
                       ("error", VStr ("vitals_agent: " +:+ exn_str e))] ∧
       marked_degraded vitals) ∧
    (∀ e, insurance_call env = Raise e →
       insurance = VDict [("verified", VBool false); ("provider", VStr "Unknown");
                          ("error", VStr ("insurance_agent: " +:+ exn_str e))] ∧
       marked_degraded insurance).
Proof.
  destruct (flow_entries env audio_bytes user_language)
    as (voice & triage & translation & history & vitals & insurance & Hrun
        & [_ Hv] & [_ Ht] & [_ Hl] & [_ Hh] & [_ Hs] & [_ Hi]).
  exists voice, triage, translation, history, vitals, insurance.
  split; [exact Hrun|].
  repeat split.
  - by apply Hv.
  - rewrite (Hv e) by done. by apply (marked_degraded_intro _ "text").
  - by apply Ht.
  - rewrite (Ht e) by done. by apply (marked_degraded_intro _ "esi_level").
  - by apply Hl.
  - by apply Hh.
  - rewrite (Hh e) by done. by apply (marked_degraded_intro _ "history").
  - by apply Hs.
  - rewrite (Hs e) by done. by apply (marked_degraded_intro _ "stress_level").
  - by apply Hi.
  - rewrite (Hi e) by done. by apply (marked_degraded_intro _ "verified").
Qed.

Lemma C1_flow_returns_with_all_entries_witness :
  run_emergency_flow all_down [] "auto" =
    Ok (VDict [("voice", VDict [("text", VStr ""); ("language", VStr "auto");
                                ("panic", VBool false);
                                ("error", VStr "voice_interface: timed out")]);
               ("triage", VDict [("esi_level", VInt 5); ("analysis", VStr "unavailable");
                                 ("error", VStr "medical_triage: timed out")]);
               ("translation", VStr "translation_error: timed out");
               ("history", VDict [("history", VStr "unavailable");
                                  ("error", VStr "history_agent: timed out")]);
               ("vitals", VDict [("stress_level", VStr "unknown"); ("heart_rate", VInt 0);
                                 ("error", VStr "vitals_agent: timed out")]);
               ("dispatch", dispatch);
               ("insurance", VDict [("verified", VBool false); ("provider", VStr "Unknown");
                                    ("error", VStr "insurance_agent: timed out")])]).
Proof.
  destruct (C1_flow_returns_with_all_entries all_down [] "auto")
    as (voice & triage & translation & history & vitals & insurance & Hrun
        & Hv & Ht & Hl & Hh & Hs & Hi).
  destruct (Hv timed_out) as [-> _]; [reflexivity|].
  destruct (Ht timed_out) as [-> _]; [reflexivity|].
  rewrite (Hl timed_out) in Hrun by reflexivity.
  destruct (Hh timed_out) as [-> _]; [reflexivity|].
  destruct (Hs timed_out) as [-> _]; [reflexivity|].
  destruct (Hi timed_out) as [-> _]; [reflexivity|].
  exact Hrun.
Defined.

(** C3, as stated: with the translation call raising and triage answering
    severity 2, the translation entry would be, or carry, the empty
    string.  It is the non-empty string "translation_error: timed out". *)
Lemma C3_translation_entry_not_empty :
  ∃ d voice triage translation,
    run_emergency_flow translation_down [] "auto" = Ok (VDict d) ∧
    dict_get "voice" d = Some voice ∧
    triage_call translation_down "auto" voice = Ok triage ∧
    py_get triage "esi_level" VNone = Ok (VInt 2) ∧
    is_raise (translation_call translation_down "auto" voice triage) ∧
    dict_get "translation" d = Some translation ∧
    ¬ carries_empty_translation translation.
Proof.
  eexists _, spoken_es, esi2, (VStr "translation_error: timed out").
  split; [exact translation_down_result|].
  repeat split.
  intros [H | (d & k & H & _)]; discriminate H.
Qed.

(** C3, amended: when the triage call returned a result with [esi_level] 2
    and the translation call raised, the composite result's translation
    entry is the string "translation_error: <cause>", and its triage entry
    is the triage result, [esi_level] 2 included. *)
Theorem C3_translation_failure_leaves_triage
  (env : Env) (audio_bytes : bytes) (user_language : string)
  (d : list (string * value)) (voice triage : value) (e : exn) :
  run_emergency_flow env audio_bytes user_language = Ok (VDict d) →
  dict_get "voice" d = Some voice →
  triage_call env user_language voice = Ok triage →
  py_get triage "esi_level" VNone = Ok (VInt 2) →
  translation_call env user_language voice triage = Raise e →
  dict_get "translation" d = Some (VStr ("translation_error: " +:+ exn_str e)) ∧
  ∃ entry, dict_get "triage" d = Some entry ∧
           py_get entry "esi_level" VNone = Ok (VInt 2).
Proof.
  intros Hrun Hvoice Htriage Hesi Htrans.
  destruct (flow_entries env audio_bytes user_language)
    as (voice' & triage' & translation & history & vitals & insurance & Hrun'
        & _ & [Ht _] & [_ Hl] & _).
  rewrite Hrun in Hrun'. injection Hrun' as ->.
  injection Hvoice as <-.
  apply Ht in Htriage as ->.
  apply Hl in Htrans as ->.
  split; [reflexivity|]. by exists triage.
Qed.

Lemma C3_translation_failure_leaves_triage_witness :
  ∃ d, run_emergency_flow translation_down [] "auto" = Ok (VDict d) ∧
       dict_get "translation" d = Some (VStr "translation_error: timed out") ∧
       ∃ entry, dict_get "triage" d = Some entry ∧
                py_get entry "esi_level" VNone = Ok (VInt 2).
Proof.
  eexists. split; [exact translation_down_result|].
  apply (C3_translation_failure_leaves_triage translation_down [] "auto" _
           spoken_es esi2 timed_out); reflexivity.
Defined.

(** C10: for every input the composite result has exactly the seven keys
    voice, triage, translation, history, vitals, dispatch, insurance, and
    its [dispatch] entry is the constant
    [{"status": "pending", "location": "unknown"}]. *)
Theorem C10_seven_keys_and_constant_dispatch
  (env : Env) (audio_bytes : bytes) (user_language : string) :
  ∃ d, run_emergency_flow env audio_bytes user_language = Ok (VDict d) ∧
       dict_keys d = ["voice"; "triage"; "translation"; "history"; "vitals";
                      "dispatch"; "insurance"] ∧
       dict_get "dispatch" d =
         Some (VDict [("status", VStr "pending"); ("location", VStr "unknown")]).
Proof.
  destruct (flow_entries env audio_bytes user_language)
    as (voice & triage & translation & history & vitals & insurance & Hrun & _).
  eexists. split; [exact Hrun|]. by split.
Qed.

End orchestrator_theorems.

(** ** Persistence *)

Module persistence_claims.
Import agent_orchestrator main examples.

Lemma truthy_nonempty (s : string) : s ≠ "" → truthy (VStr s) = true.
Proof. intros H. unfold truthy. apply String.eqb_neq in H. by rewrite H. Qed.

Section with_surroundings.
Context (env : Env) (be : Backend).

(** [save_triage_log] only adds database events to the trace, and the one
    exception that leaves it is one raised by [conn.close()] in the
    [finally] clause. *)
Lemma save_triage_log_outcome
  (user_id language symptoms esi_level agent_responses : value) (t : list event) :
  ∃ r evs,
    save_triage_log be user_id language symptoms esi_level agent_responses t
      = (r, t ++ evs) ∧
    forallb is_db_event evs = true ∧
    (r = Ok () ∨ ∃ e, r = Raise e ∧ close be = Raise e).
Proof.
  unfold save_triage_log.
  destruct (DATABASE_URL be) as [db_url|];
    [|exists (Ok ()), []; by rewrite app_nil_r; auto].
  destruct (String.eqb db_url "");
    [exists (Ok ()), []; by rewrite app_nil_r; auto|].
  unfold mbind, M_bind, try_exceptM, try_finally, emit, lift, mret, M_ret.
  destruct (connect be db_url) as [[]|ec];
    [|exists (Ok ()), [DbConnect db_url]; auto].
  destruct (truthy symptoms).
  - destruct (redact_pii be symptoms) as [redacted|er].
    + destruct (json_dumps be agent_responses) as [dumped|ej].
      * destruct (execute be _) as [[]|ex];
          (destruct (close be) as [[]|ecl]; eexists _, [_; _; _];
           rewrite <- !app_assoc; simpl; eauto 6).
      * destruct (close be) as [[]|ecl]; eexists _, [_; _];
          rewrite <- !app_assoc; simpl; eauto 6.
    + destruct (close be) as [[]|ecl]; eexists _, [_; _];
        rewrite <- !app_assoc; simpl; eauto 6.
  - destruct (json_dumps be agent_responses) as [dumped|ej].
    + destruct (execute be _) as [[]|ex];
        (destruct (close be) as [[]|ecl]; eexists _, [_; _; _];
         rewrite <- !app_assoc; simpl; eauto 6).
    + destruct (close be) as [[]|ecl]; eexists _, [_; _];
        rewrite <- !app_assoc; simpl; eauto 6.
Qed.

(** The guarded persistence step never raises and sends nothing. *)
Lemma persist_outcome (result : value) (t : list event) :
  ∃ evs, persist be result t = (Ok (), t ++ evs) ∧
         forallb is_db_event evs = true ∧
         (DATABASE_URL be = None → evs = []).
Proof.
  unfold persist, try_exceptM, mbind, M_bind, lift.
  destruct (py_get result "voice" (VDict [])) as [voice|e];
    [|exists []; by rewrite app_nil_r].
  destruct (py_get voice "text" (VStr "")) as [voice_text|e];
    [|exists []; by rewrite app_nil_r].
  destruct (py_get voice "language" (VStr "en")) as [language|e];
    [|exists []; by rewrite app_nil_r].
  destruct (py_get result "triage" (VDict [])) as [triage_result|e];
    [|exists []; by rewrite app_nil_r].
  destruct (py_get triage_result "esi_level" VNone) as [esi_level|e];
    [|exists []; by rewrite app_nil_r].
  destruct (save_triage_log_outcome VNone language voice_text esi_level result t)
    as (r & evs & Hsave & Hdb & Hr).
  rewrite Hsave. exists evs.
  split; [|split; [done|]].
  - destruct Hr as [->|(e & -> & _)]; reflexivity.
  - intros Hnone. unfold save_triage_log in Hsave. rewrite Hnone in Hsave.
    injection Hsave as _ Ht. rewrite <- (app_nil_r t) in Ht at 1.
    by apply app_inv_head in Ht.
Qed.

End with_surroundings.

(** C9: the persistence step of [ws_triage] neither changes the composite
    result nor raises.  Without [DATABASE_URL] (unset or empty)
    [save_triage_log] does nothing; a failed connection and a failed
    insertion are swallowed inside it; and for every behaviour of the
    database the handler ends normally with the result of
    [run_emergency_flow] as the one message sent, after database events
    only. *)
Theorem C9_persistence_is_best_effort (env : Env) (be : Backend) :
  (∀ user_id language symptoms esi_level agent_responses t,
     DATABASE_URL be = None ∨ DATABASE_URL be = Some "" →
     save_triage_log be user_id language symptoms esi_level agent_responses t
       = (Ok (), t)) ∧
  (∀ user_id language symptoms esi_level agent_responses t db_url e,
     DATABASE_URL be = Some db_url → db_url ≠ "" →
     connect be db_url = Raise e →
     save_triage_log be user_id language symptoms esi_level agent_responses t
       = (Ok (), t ++ [DbConnect db_url])) ∧
  (∀ user_id language symptoms esi_level agent_responses t,
     close be = Ok () →
     ∃ evs,
       save_triage_log be user_id language symptoms esi_level agent_responses t
         = (Ok (), t ++ evs) ∧ forallb is_db_event evs = true) ∧
  (∀ data audio_b64 audio_bytes t,
     py_get data "audio" VNone = Ok (VStr audio_b64) →
     audio_b64 ≠ "" →
     b64decode be (last_segment audio_b64) = Ok audio_bytes →
     ∃ result evs,
       run_emergency_flow env audio_bytes "auto" = Ok result ∧
       ws_triage_turn env be data t = (Ok (), t ++ evs ++ [WsSend result]) ∧
       forallb is_db_event evs = true ∧
       (DATABASE_URL be = None → evs = [])).
Proof.
  split; [|split; [|split]].
  - intros user_id language symptoms esi_level agent_responses t [H|H];
      unfold save_triage_log; by rewrite H.
  - intros user_id language symptoms esi_level agent_responses t db_url e
      Hurl Hne Hconn.
    unfold save_triage_log. rewrite Hurl.
    apply String.eqb_neq in Hne. rewrite Hne.
    unfold mbind, M_bind, try_exceptM, emit, lift. by rewrite Hconn.
  - intros user_id language symptoms esi_level agent_responses t Hclose.
    destruct (save_triage_log_outcome be user_id language symptoms esi_level
                agent_responses t) as (r & evs & Hsave & Hdb & Hr).
    exists evs. split; [|done]. rewrite Hsave.
    destruct Hr as [->|(e & _ & He)]; [done|congruence].
  - intros data audio_b64 audio_bytes t Haudio Hne Hdec.
    destruct (orchestrator_claims.flow_entries env audio_bytes "auto")
      as (voice & triage & translation & history & vitals & insurance & Hrun & _).
    eexists. 
    destruct (persist_outcome be
                (VDict [("voice", voice); ("triage", triage);
                        ("translation", translation); ("history", history);
                        ("vitals", vitals); ("dispatch", dispatch);
                        ("insurance", insurance)]) t)
      as (evs & Hpersist & Hdb & Hnone).
    exists evs. split; [exact Hrun|]. split; [|done].
    unfold ws_triage_turn.
    unfold try_exceptM, mbind, M_bind, lift, emit.
    rewrite Haudio. cbv beta iota.
    rewrite (truthy_nonempty _ Hne). change (negb true) with false. cbv beta iota.
    rewrite Hdec. cbv beta iota. rewrite Hrun. cbv beta iota.
    rewrite Hpersist. by rewrite app_assoc.
Qed.

Lemma C9_persistence_is_best_effort_witness :
  ∃ result evs,
    run_emergency_flow all_down [] "auto" = Ok result ∧
    ws_triage_turn all_down failing_database
      (VDict [("audio", VStr "data:audio/wav;base64,AAAA")]) []
      = (Ok (), [] ++ evs ++ [WsSend result]) ∧
    forallb is_db_event evs = true ∧
    (DATABASE_URL failing_database = None → evs = []).
Proof.
  destruct (C9_persistence_is_best_effort all_down failing_database)
    as (_ & _ & _ & Hws).
  apply (Hws _ "data:audio/wav;base64,AAAA" []); [reflexivity|discriminate|reflexivity].
Defined.

End persistence_claims.

(** * Further properties *)

(** ** History truncation, further *)

Module truncation_extras.
Import triage examples truncation_props.

(** The loop, from one item on: the accumulator followed by as many of the
    valid items met as still fit. *)
Lemma collect_take valid (n : Z) (rev_items new_items : list ChatItem) :
  (Z.of_nat (length new_items) < n)%Z →
  collect valid n rev_items new_items =
    new_items ++ take (Z.to_nat n - length new_items) (filter (λ x, valid x) rev_items).
Proof.
  revert new_items.
  induction rev_items as [|x l IH]; intros acc Hacc; simpl collect.
  - rewrite filter_nil, take_nil. by rewrite app_nil_r.
  - destruct (valid x) eqn:Hx.
    + rewrite filter_cons_True by (rewrite Hx; simpl; auto).
      destruct (Z.to_nat n - length acc) as [|k] eqn:Hk; [lia|]. simpl.
      destruct (Z.geb_spec (Z.of_nat (length (acc ++ [x]))) n) as [Hge|Hlt].
      * rewrite length_app in Hge. simpl in Hge.
        assert (k = 0) as -> by lia. by rewrite take_0.
      * rewrite IH by done. rewrite <- app_assoc. simpl.
        rewrite length_app. simpl.
        by replace (Z.to_nat n - (length acc + 1)) with k by lia.
    + rewrite filter_cons_False by (rewrite Hx; simpl; auto).
      destruct (Z.geb_spec (Z.of_nat (length acc)) n) as [Hge|Hlt]; [lia|].
      by apply IH.
Qed.

(** With a bound of zero or less the loop stops after the first item it
    looks at. *)
Lemma collect_nonpos valid (n : Z) (rev_items : list ChatItem) :
  (n ≤ 0)%Z →
  collect valid n rev_items [] = filter (λ x, valid x) (take 1 rev_items).
Proof.
  intros Hn. destruct rev_items as [|x l]; [done|].
  change (take 1 (x :: l)) with [x]. simpl collect.
  destruct (valid x) eqn:Hx.
  - rewrite filter_cons_True, filter_nil by (rewrite Hx; simpl; auto).
    simpl. destruct (Z.geb_spec (Z.of_nat 1) n); [done|lia].
  - rewrite filter_cons_False, filter_nil by (rewrite Hx; simpl; auto).
    simpl. destruct (Z.geb_spec (Z.of_nat 0) n); [done|lia].
Qed.

Lemma collected_last_n (items : list ChatItem) (n : Z) (ks kf : bool) :
  (1 ≤ n)%Z →
  collected items n ks kf =
    let kept := filter (λ x, _valid_item ks kf x) items in
    drop (length kept - Z.to_nat n) kept.
Proof.
  intros Hn. unfold collected.
  rewrite collect_take by (simpl; lia). simpl.
  rewrite Nat.sub_0_r, filter_reverse, take_reverse.
  by rewrite reverse_involutive.
Qed.

Lemma drop_leading_calls_suffix (l : list ChatItem) :
  drop_leading_calls l `suffix_of` l.
Proof.
  induction l as [|x l IH]; simpl; [done|].
  destruct (is_function_item x); [by apply suffix_cons_r|done].
Qed.

Lemma drop_leading_calls_fixed (l : list ChatItem) :
  (∀ x, head l = Some x → is_function_item x = false) →
  drop_leading_calls l = l.
Proof.
  destruct l as [|x l]; simpl; [done|].
  intros H. by rewrite (H x eq_refl).
Qed.

Lemma filter_sublist_mono {A} (P : A → Prop) `{!∀ x, Decision (P x)}
  (l1 l2 : list A) :
  l1 `sublist_of` l2 → filter P l1 `sublist_of` filter P l2.
Proof.
  induction 1 as [|x l1 l2 _ IH|x l1 l2 _ IH]; [done| |].
  - rewrite !filter_cons. destruct (decide (P x)); [by constructor|done].
  - rewrite filter_cons. destruct (decide (P x)); [by constructor|done].
Qed.

Lemma collected_sublist (items : list ChatItem) (n : Z) (ks kf : bool) :
  collected items n ks kf `sublist_of` filter (λ x, _valid_item ks kf x) items.
Proof.
  destruct (Z.le_gt_cases 1 n) as [Hn|Hn].
  - rewrite collected_last_n by done. apply sublist_drop.
  - unfold collected. rewrite collect_nonpos by lia.
    rewrite <- filter_reverse. apply filter_sublist_mono.
    rewrite reverse_take, reverse_involutive. apply sublist_drop.
Qed.

End truncation_extras.

Module truncation_more.
Import triage examples truncation_props truncation_extras.

Lemma filter_all {A} (P : A → Prop) `{!∀ x, Decision (P x)} (l : list A) :
  Forall P l → filter P l = l.
Proof.
  induction 1 as [|x l Hx _ IH]; [done|].
  by rewrite filter_cons_True, IH.
Qed.

Lemma suffix_sublist_of {A} (l1 l2 : list A) :
  l1 `suffix_of` l2 → l1 `sublist_of` l2.
Proof. intros [k ->]. by apply sublist_inserts_l. Qed.

Lemma truncate_sublist_valid (items : list ChatItem) (n : Z) (ks kf : bool) :
  _truncate_chat_ctx items n ks kf
    `sublist_of` filter (λ x, _valid_item ks kf x) items.
Proof.
  unfold _truncate_chat_ctx.
  etrans; [apply suffix_sublist_of, drop_leading_calls_suffix|].
  apply collected_sublist.
Qed.

Lemma truncate_all_valid (items : list ChatItem) (n : Z) (ks kf : bool) :
  Forall (λ x, _valid_item ks kf x) (_truncate_chat_ctx items n ks kf).
Proof.
  apply Forall_forall. intros x Hx.
  eapply elem_of_sublist in Hx; [|apply truncate_sublist_valid].
  by apply list_elem_of_filter in Hx as [? _].
Qed.

Lemma collected_nonpos_length (items : list ChatItem) (n : Z) (ks kf : bool) :
  (n ≤ 0)%Z → length (collected items n ks kf) ≤ 1.
Proof.
  intros Hn. unfold collected. rewrite collect_nonpos by done.
  rewrite length_reverse.
  etrans; [apply length_filter|]. rewrite length_take. lia.
Qed.

(** A list that already has the shape of a result is returned as it is. *)
Lemma truncate_fixed (out : list ChatItem) (n : Z) (ks kf : bool) :
  Forall (λ x, _valid_item ks kf x) out →
  (∀ x, head out = Some x → is_function_item x = false) →
  (1 ≤ n ∧ Z.of_nat (length out) ≤ n)%Z ∨ length out ≤ 1 →
  _truncate_chat_ctx out n ks kf = out.
Proof.
  intros Hvalid Hhead Hlen. unfold _truncate_chat_ctx.
  assert (collected out n ks kf = out) as ->;
    [|by apply drop_leading_calls_fixed].
  destruct Hlen as [[Hn Hlen]|Hlen].
  - rewrite collected_last_n by done. simpl.
    rewrite filter_all by done.
    replace (length out - Z.to_nat n) with 0 by lia. done.
  - destruct out as [|x [|y out]]; [done| |simpl in Hlen; lia].
    apply Forall_inv in Hvalid. unfold collected. simpl.
    destruct (_valid_item ks kf x); [|done]. simpl.
    by destruct (_ >=? _)%Z.
Qed.

End truncation_more.

Module truncation_theorems.
Import triage examples truncation_props truncation_claims truncation_extras truncation_more.

(** X1: the result of [_truncate_chat_ctx] is a sublist of its input: it
    holds items of the input only, in their original order, each at most
    as often as the input does; and every item of it passes
    [_valid_item]. *)
Theorem truncate_selects_in_order
  (items : list ChatItem) (n : Z) (ks kf : bool) :
  _truncate_chat_ctx items n ks kf `sublist_of` items ∧
  Forall (λ x, _valid_item ks kf x = true) (_truncate_chat_ctx items n ks kf).
Proof.
  split.
  - etrans; [apply truncate_sublist_valid|]. apply sublist_filter.
  - eapply Forall_impl; [apply truncate_all_valid|].
    intros x Hx. by apply Is_true_true.
Qed.

(** X2: without [keep_system_message] no system message is returned, and
    without [keep_function_call] nothing but messages is returned. *)
Theorem truncate_respects_flags (items : list ChatItem) (n : Z) (ks kf : bool) :
  Forall (λ x, is_system_message x = false) (_truncate_chat_ctx items n false kf) ∧
  Forall (λ x, item_type x = "message") (_truncate_chat_ctx items n ks false).
Proof.
  split.
  - eapply Forall_impl; [apply truncate_all_valid|].
    intros x Hx. unfold _valid_item in Hx. simpl in Hx.
    by destruct (is_system_message x).
  - eapply Forall_impl; [apply truncate_all_valid|].
    intros x Hx. unfold _valid_item in Hx.
    apply is_function_item_message.
    destruct (is_function_item x); [|done].
    by destruct (negb ks && is_system_message x).
Qed.

(** X3: from a bound of one on, at most [keep_last_n_messages] items are
    returned. *)
Theorem truncate_at_most_n (items : list ChatItem) (n : Z) (ks kf : bool) :
  (1 ≤ n)%Z → length (_truncate_chat_ctx items n ks kf) ≤ Z.to_nat n.
Proof.
  intros Hn. destruct (truncate_length_le items n ks kf Hn) as (_ & _ & H). lia.
Qed.

Lemma truncate_at_most_n_witness :
  length (_truncate_chat_ctx (scenario ++ scenario) 3 false true) ≤ 3.
Proof. apply (truncate_at_most_n (scenario ++ scenario) 3 false true). lia. Defined.

(** X4: from a bound of one on, the items collected are exactly the last
    [keep_last_n_messages] of the valid items, so a history with no more
    valid items than the bound loses none of them before the leading tool
    items are dropped. *)
Theorem truncate_keeps_last_n_valid (items : list ChatItem) (n : Z) (ks kf : bool) :
  (1 ≤ n)%Z →
  let kept := filter (λ x, _valid_item ks kf x) items in
  _truncate_chat_ctx items n ks kf =
    drop_leading_calls (drop (length kept - Z.to_nat n) kept) ∧
  (length kept ≤ Z.to_nat n →
     _truncate_chat_ctx items n ks kf = drop_leading_calls kept).
Proof.
  intros Hn kept. subst kept. unfold _truncate_chat_ctx.
  rewrite collected_last_n by done. cbv zeta. split; [done|].
  intros Hlen.
  replace (length (filter (λ x, _valid_item ks kf x) items) - Z.to_nat n)
    with 0 by lia.
  done.
Qed.

Lemma truncate_keeps_last_n_valid_witness :
  _truncate_chat_ctx scenario 2 false true = drop_leading_calls [tool_result3; msg4] ∧
  _truncate_chat_ctx scenario 6 false true =
    drop_leading_calls [msg1; tool_call2; tool_result3; msg4].
Proof.
  split.
  - apply (truncate_keeps_last_n_valid scenario 2 false true). lia.
  - apply (truncate_keeps_last_n_valid scenario 6 false true); [lia|simpl; lia].
Defined.

(** X5: truncating a truncated history again, with the same parameters,
    changes nothing. *)
Theorem truncate_idempotent (items : list ChatItem) (n : Z) (ks kf : bool) :
  _truncate_chat_ctx (_truncate_chat_ctx items n ks kf) n ks kf =
  _truncate_chat_ctx items n ks kf.
Proof.
  apply truncate_fixed.
  - apply truncate_all_valid.
  - apply drop_leading_calls_head.
  - destruct (Z.le_gt_cases 1 n) as [Hn|Hn].
    + left. split; [done|]. by apply truncate_length_le.
    + right. etrans; [apply drop_leading_calls_length|].
      apply collected_nonpos_length. lia.
Qed.

End truncation_theorems.

Module merge_extras.
Import triage examples truncation_props truncation_extras truncation_more merge_claims.

(** X6: what [on_enter] appends to the entered agent's history are items
    of the previous agent's history, in their order, none of them a system
    message and none with an id the history already had; the history it
    had stays in front. *)
Theorem copy_history_appends_new_items (dest source : list ChatItem) :
  ∃ new_items,
    copy_history dest source = dest ++ new_items ∧
    new_items `sublist_of` source ∧
    Forall (λ x, is_system_message x = false ∧
                 item_id x ∉ existing_ids dest) new_items.
Proof.
  eexists. split; [reflexivity|]. split.
  - etrans; [apply sublist_filter|].
    etrans; [apply truncate_sublist_valid|]. apply sublist_filter.
  - apply Forall_forall. intros x Hx.
    apply list_elem_of_filter in Hx as [Hid Hx]. split; [|done].
    pose proof (truncate_all_valid source 6 false true) as Hv.
    rewrite Forall_forall in Hv. specialize (Hv x Hx).
    unfold _valid_item in Hv. simpl in Hv.
    by destruct (is_system_message x).
Qed.

(** X7: ids stay unique: when the ids of the entered agent's history are
    pairwise distinct and so are those of the previous agent's history,
    the ids of the history after the copy are pairwise distinct. *)
Theorem copy_history_ids_unique (dest source : list ChatItem) :
  NoDup (item_id <$> dest) → NoDup (item_id <$> source) →
  NoDup (item_id <$> copy_history dest source).
Proof.
  intros Hd Hs. unfold copy_history, extend_new.
  rewrite fmap_app. apply NoDup_app. split; [done|]. split.
  - intros id Hin Hnew.
    apply list_elem_of_fmap in Hnew as (x & -> & Hx).
    apply list_elem_of_filter in Hx as [Hid _].
    apply Hid. apply existing_ids_spec.
    apply list_elem_of_fmap in Hin as (y & Hy & Hin). eauto.
  - eapply sublist_NoDup; [exact Hs|].
    apply fmap_sublist.
    etrans; [apply sublist_filter|].
    etrans; [apply truncate_sublist_valid|]. apply sublist_filter.
Qed.

Lemma copy_history_ids_unique_witness :
  NoDup (item_id <$> copy_history [msg1; msg4] scenario).
Proof.
  apply (copy_history_ids_unique [msg1; msg4] scenario);
    compute_done.
Defined.

End merge_extras.

(** ** Runs of a session *)

Module session_theorems.
Import triage examples session_runs merge_claims transfer_claims.

Lemma on_enter_class_of (self : agent_ref) (fresh_id : string) (s : Session)
  (a : agent_ref) :
  class_of (on_enter self fresh_id s) a = class_of s a.
Proof.
  unfold class_of, on_enter.
  destruct (agents s !! self) as [obj|] eqn:Hself; [|done]. simpl.
  destruct (decide (self = a)) as [<-|Hne].
  - by rewrite lookup_insert_eq, Hself.
  - by rewrite lookup_insert_ne.
Qed.

Lemma wired_entrypoint (has_room : bool) (fresh_id : string) :
  wired (entrypoint has_room fresh_id).
Proof.
  unfold entrypoint. split.
  - by rewrite on_enter_userdata.
  - by rewrite on_enter_class_of.
  - by rewrite on_enter_class_of.
  - by rewrite on_enter_class_of.
  - rewrite on_enter_current_agent. simpl. apply elem_of_cons. by left.
  - by rewrite on_enter_userdata, on_enter_current_agent.
Qed.

(** One tool of the current agent, then the hand-off. *)
Lemma wired_step (s : Session) (t : tool) (fresh_id : string) :
  wired s → t ∈ tools_of (current_class s) →
  ∃ s', handoff fresh_id (t s) = Ok s' ∧ wired s' ∧
        prev_agent (userdata s') = Some (current_agent s) ∧
        current_agent s' ≠ current_agent s ∧
        length (spoken s') = S (length (spoken s)).
Proof.
  intros [Hreg Ht Hs Hb Hcur Hprev] Hin.
  assert (∀ name a msg, registry !! name = Some a → a ≠ current_agent s →
            a ∈ [triage_agent; support_agent; billing_agent] →
            ∃ s', handoff fresh_id (_transfer_to_agent name (say msg s)) = Ok s' ∧
                  wired s' ∧ prev_agent (userdata s') = Some (current_agent s) ∧
                  current_agent s' ≠ current_agent s ∧
                  length (spoken s') = S (length (spoken s))) as Hstep.
  { intros name a msg Hname Hne Ha.
    assert (personas (userdata (say msg s)) !! name = Some a) as Hlook
      by (simpl; by rewrite Hreg).
    rewrite (transfer_registered _ _ _ Hlook).
    eexists. split; [reflexivity|]. simpl.
    split; [split|].
    - by rewrite on_enter_userdata.
    - by rewrite on_enter_class_of.
    - by rewrite on_enter_class_of.
    - by rewrite on_enter_class_of.
    - by rewrite on_enter_current_agent.
    - rewrite on_enter_userdata, on_enter_current_agent. simpl. congruence.
    - rewrite on_enter_userdata, on_enter_current_agent. simpl.
      split; [done|]. split; [done|].
      unfold on_enter. simpl.
      destruct (agents s !! a); simpl; rewrite length_app; simpl; lia. }
  unfold current_class in Hin. unfold class_of in Ht, Hs, Hb.
  rewrite !elem_of_cons in Hcur.
  destruct Hcur as [Hc|[Hc|[Hc|Hc]]]; [| | |by apply elem_of_nil in Hc];
    rewrite Hc in Hin.
  - rewrite Ht in Hin. simpl in Hin. unfold tools_of in Hin. simpl in Hin.
    rewrite !elem_of_cons in Hin.
    destruct Hin as [->|[->|Hin]]; [| |by apply elem_of_nil in Hin].
    + apply (Hstep "support" support_agent); [done|by rewrite Hc|set_solver].
    + apply (Hstep "billing" billing_agent); [done|by rewrite Hc|set_solver].
  - rewrite Hs in Hin. simpl in Hin. unfold tools_of in Hin. simpl in Hin.
    rewrite !elem_of_cons in Hin.
    destruct Hin as [->|[->|Hin]]; [| |by apply elem_of_nil in Hin].
    + apply (Hstep "triage" triage_agent); [done|by rewrite Hc|set_solver].
    + apply (Hstep "billing" billing_agent); [done|by rewrite Hc|set_solver].
  - rewrite Hb in Hin. simpl in Hin. unfold tools_of in Hin. simpl in Hin.
    rewrite !elem_of_cons in Hin.
    destruct Hin as [->|[->|Hin]]; [| |by apply elem_of_nil in Hin].
    + apply (Hstep "triage" triage_agent); [done|by rewrite Hc|set_solver].
    + apply (Hstep "support" support_agent); [done|by rewrite Hc|set_solver].
Qed.

Lemma reachable_wired (s : Session) : reachable s → wired s.
Proof.
  induction 1 as [has_room fresh_id|s s' t fresh_id _ IH Hin Hstep].
  - apply wired_entrypoint.
  - destruct (wired_step s t fresh_id IH Hin) as (s'' & Hs'' & Hw & _).
    rewrite Hstep in Hs''. by injection Hs'' as ->.
Qed.

End session_theorems.

Module session_extras.
Import triage examples session_runs merge_claims transfer_claims session_theorems.
Import truncation_more.

(** X8: in every session of a run the registry is the one [entrypoint]
    installed, the three agents keep their classes, the current agent is
    one of the registered personas, and [prev_agent] is never the current
    agent. *)
Theorem run_keeps_registry (s : Session) :
  reachable s →
  personas (userdata s) = registry ∧
  class_of s triage_agent = Some "TriageAgent" ∧
  class_of s support_agent = Some "SupportAgent" ∧
  class_of s billing_agent = Some "BillingAgent" ∧
  (∃ name, personas (userdata s) !! name = Some (current_agent s)) ∧
  prev_agent (userdata s) ≠ Some (current_agent s).
Proof.
  intros Hr. destruct (reachable_wired s Hr) as [Hreg Ht Hs Hb Hcur Hprev].
  repeat split; try done.
  rewrite Hreg. rewrite !elem_of_cons in Hcur.
  destruct Hcur as [->|[->|[->|Hc]]]; [| | |by apply elem_of_nil in Hc].
  - by exists "triage".
  - by exists "support".
  - by exists "billing".
Qed.

Lemma run_keeps_registry_witness :
  personas (userdata (entrypoint true "item_0")) = registry ∧
  class_of (entrypoint true "item_0") triage_agent = Some "TriageAgent" ∧
  class_of (entrypoint true "item_0") support_agent = Some "SupportAgent" ∧
  class_of (entrypoint true "item_0") billing_agent = Some "BillingAgent" ∧
  (∃ name, personas (userdata (entrypoint true "item_0")) !! name
             = Some (current_agent (entrypoint true "item_0"))) ∧
  prev_agent (userdata (entrypoint true "item_0"))
    ≠ Some (current_agent (entrypoint true "item_0")).
Proof.
  apply (run_keeps_registry (entrypoint true "item_0")). apply reach_start.
Defined.

(** X9: in a run no transfer tool of the current agent raises: the
    hand-off succeeds, makes a different agent current, records the agent
    left as [prev_agent], and exactly one announcement was spoken. *)
Theorem run_transfer_succeeds (s : Session) (t : tool) (fresh_id : string) :
  reachable s → t ∈ tools_of (current_class s) →
  ∃ s', handoff fresh_id (t s) = Ok s' ∧
        prev_agent (userdata s') = Some (current_agent s) ∧
        current_agent s' ≠ current_agent s ∧
        length (spoken s') = S (length (spoken s)).
Proof.
  intros Hr Hin.
  destruct (wired_step s t fresh_id (reachable_wired s Hr) Hin)
    as (s' & Hs' & _ & Hp & Hc & Hsp).
  by exists s'.
Qed.

Lemma run_transfer_succeeds_witness :
  ∃ s', handoff "item_1" (TriageAgent.transfer_to_billing (entrypoint true "item_0"))
          = Ok s' ∧
        prev_agent (userdata s') = Some (current_agent (entrypoint true "item_0")) ∧
        current_agent s' ≠ current_agent (entrypoint true "item_0") ∧
        length (spoken s') = S (length (spoken (entrypoint true "item_0"))).
Proof.
  apply (run_transfer_succeeds (entrypoint true "item_0")
           TriageAgent.transfer_to_billing "item_1").
  - apply reach_start.
  - apply elem_of_cons. right. apply elem_of_cons. by left.
Defined.








End session_extras.

(** ** The aggregator and the capability clients, further *)

Module aggregator_extras.
Import agent_orchestrator examples spec_reading orchestrator_claims.

Lemma py_get_not_dict (v : value) (key : string) (dflt : value) :
  type_name v ≠ "dict" → py_get v key dflt = Raise (AttributeError v "get").
Proof. by destruct v. Qed.

(** X12: when the transcription provider answers with something that is
    not a dict, the answer is kept as the [voice] entry, and both calls
    that read it are given up: the triage entry is the triage fallback and
    the translation entry the translation fallback, each with the
    [AttributeError] text "'<type>' object has no attribute 'get'". *)
Theorem malformed_voice_degrades_dependents
  (env : Env) (audio_bytes : bytes) (user_language : string) (v : value) :
  transcribe_audio env audio_bytes user_language = Ok v →
  type_name v ≠ "dict" →
  ∃ history vitals insurance,
    run_emergency_flow env audio_bytes user_language =
      Ok (VDict [("voice", v);
                 ("triage",
                  VDict [("esi_level", VInt 5); ("analysis", VStr "unavailable");
                         ("error", VStr ("medical_triage: '" +:+ type_name v
                                           +:+ "' object has no attribute 'get'"))]);
                 ("translation",
                  VStr ("translation_error: '" +:+ type_name v
                          +:+ "' object has no attribute 'get'"));
                 ("history", history); ("vitals", vitals);
                 ("dispatch", dispatch); ("insurance", insurance)]).
Proof.
  intros Hvoice Hv.
  destruct (flow_entries env audio_bytes user_language)
    as (voice & triage & translation & history & vitals & insurance & Hrun
        & [Hvo _] & [_ Ht] & [_ Hl] & _).
  assert (voice = v) as -> by (by apply Hvo).
  assert (triage = triage_fallback (AttributeError v "get")) as ->.
  { apply Ht. unfold triage_call. by rewrite (py_get_not_dict v "text"). }
  assert (translation = translation_fallback (AttributeError v "get")) as ->.
  { apply Hl. unfold translation_call. simpl.
    by rewrite (py_get_not_dict v "language"). }
  by exists history, vitals, insurance.
Qed.

Lemma malformed_voice_degrades_dependents_witness :
  ∃ history vitals insurance,
    run_emergency_flow
      {| format_value := format_scalar;
         transcribe_audio := λ _ _, Ok (VStr "dolor");
         analyze_symptoms := λ _ _, Ok esi2;
         analyze_vitals := λ _, Raise timed_out;
         verify_insurance := λ _, Raise timed_out;
         MEDICAL_OFFICE_TRIAGE_API_URL := None;
         http_post := λ _ _, Raise timed_out |} [] "auto" =
      Ok (VDict [("voice", VStr "dolor");
                 ("triage",
                  VDict [("esi_level", VInt 5); ("analysis", VStr "unavailable");
                         ("error", VStr "medical_triage: 'str' object has no attribute 'get'")]);
                 ("translation",
                  VStr "translation_error: 'str' object has no attribute 'get'");
                 ("history", history); ("vitals", vitals);
                 ("dispatch", dispatch); ("insurance", insurance)]).
Proof.
  apply (malformed_voice_degrades_dependents _ [] "auto" (VStr "dolor"));
    [reflexivity|discriminate].
Defined.

(** X13: when the transcription call raises, the triage provider is asked
    about the empty text in the caller's language, and the [triage] entry
    is its answer, or the triage fallback when it raises too. *)
Theorem failed_voice_triages_empty_text
  (env : Env) (audio_bytes : bytes) (user_language : string) (e : exn) :
  transcribe_audio env audio_bytes user_language = Raise e →
  ∃ d, run_emergency_flow env audio_bytes user_language = Ok (VDict d) ∧
       dict_get "triage" d =
         Some (match analyze_symptoms env (VStr "") (VStr user_language) with
               | Ok answer => answer
               | Raise e' => triage_fallback e'
               end).
Proof.
  intros Hvoice.
  destruct (flow_entries env audio_bytes user_language)
    as (voice & triage & translation & history & vitals & insurance & Hrun
        & [_ Hvo] & [Ht1 Ht2] & _).
  rewrite (Hvo e Hvoice) in *.
  eexists. split; [exact Hrun|]. simpl. f_equal.
  unfold triage_call, voice_fallback in Ht1, Ht2. simpl in Ht1, Ht2.
  destruct (analyze_symptoms env (VStr "") (VStr user_language)); eauto.
Qed.

Lemma failed_voice_triages_empty_text_witness :
  ∃ d, run_emergency_flow all_down [] "auto" = Ok (VDict d) ∧
       dict_get "triage" d =
         Some (match analyze_symptoms all_down (VStr "") (VStr "auto") with
               | Ok answer => answer
               | Raise e' => triage_fallback e'
               end).
Proof.
  apply (failed_voice_triages_empty_text all_down [] "auto" timed_out).
  reflexivity.
Defined.

(** X14: when the triage call raises, the text handed to the translation
    client is "ESI Level: " followed by the formatted fallback level 5. *)
Theorem failed_triage_translates_level_5
  (env : Env) (audio_bytes : bytes) (user_language : string)
  (d : list (string * value)) (voice language : value) (e : exn) :
  run_emergency_flow env audio_bytes user_language = Ok (VDict d) →
  dict_get "voice" d = Some voice →
  triage_call env user_language voice = Raise e →
  py_get voice "language" (VStr user_language) = Ok language →
  dict_get "translation" d =
    Some (match translation_coordinator_agent.translate_medical env
                  ("ESI Level: " +:+ format_value env (VInt 5)) language with
          | Ok answer => answer
          | Raise e' => translation_fallback e'
          end).
Proof.
  intros Hrun Hvoice Htriage Hlang.
  destruct (flow_entries env audio_bytes user_language)
    as (voice' & triage & translation & history & vitals & insurance & Hrun'
        & _ & [_ Ht] & [Hl1 Hl2] & _).
  rewrite Hrun in Hrun'. injection Hrun' as ->.
  injection Hvoice as <-.
  rewrite (Ht e Htriage) in *. simpl. f_equal.
  unfold translation_call, triage_fallback in Hl1, Hl2.
  simpl in Hl1, Hl2. rewrite Hlang in Hl1, Hl2. simpl in Hl1, Hl2.
  destruct (translation_coordinator_agent.translate_medical env _ language); eauto.
Qed.

Lemma failed_triage_translates_level_5_witness :
  ∃ d, run_emergency_flow all_down [] "auto" = Ok (VDict d) ∧
       dict_get "translation" d = Some (VStr "translation_error: timed out").
Proof.
  eexists. split; [reflexivity|].
  apply (failed_triage_translates_level_5 all_down [] "auto" _
           (voice_fallback "auto" timed_out) (VStr "auto") timed_out);
    reflexivity.
Defined.

End aggregator_extras.

Module client_extras.
Import examples more_examples.

(** X15: [translate_medical] returns exactly when the request succeeds
    with a dict; it then returns the reply's [translatedText], and the
    input text itself when the reply has no such key.  A failed request
    raises the same exception. *)
Theorem translate_medical_answers
  (env : Env) (text : string) (target_language : value) :
  let request := http_post env translation_coordinator_agent.url
                   (JsonBody (VDict [("q", VStr text); ("target", target_language)])) in
  (∀ d, request = Ok (VDict d) →
     translation_coordinator_agent.translate_medical env text target_language =
       Ok (default (VStr text) (dict_get "translatedText" d))) ∧
  (∀ d, request = Ok (VDict d) → dict_get "translatedText" d = None →
     translation_coordinator_agent.translate_medical env text target_language =
       Ok (VStr text)) ∧
  (∀ e, request = Raise e →
     translation_coordinator_agent.translate_medical env text target_language =
       Raise e) ∧
  (∀ v, translation_coordinator_agent.translate_medical env text target_language = Ok v →
     ∃ d, request = Ok (VDict d)).
Proof.
  intros request. subst request.
  unfold translation_coordinator_agent.translate_medical.
  repeat split.
  - intros d ->. reflexivity.
  - intros d -> Hnone. simpl. by rewrite Hnone.
  - intros e ->. reflexivity.
  - intros v. destruct (http_post env _ _) as [[]|]; try discriminate. eauto.
Qed.

Lemma translate_medical_answers_witness :
  translation_coordinator_agent.translate_medical
    {| format_value := format_scalar;
       transcribe_audio := λ _ _, Ok spoken_es;
       analyze_symptoms := λ _ _, Ok esi2;
       analyze_vitals := λ _, Raise timed_out;
       verify_insurance := λ _, Raise timed_out;
       MEDICAL_OFFICE_TRIAGE_API_URL := None;
       http_post := λ _ _, Ok (VDict [("status", VStr "ok")]) |}
    "ESI Level: 2" (VStr "es") = Ok (VStr "ESI Level: 2").
Proof.
  eapply (translate_medical_answers _ "ESI Level: 2" (VStr "es"));
    reflexivity.
Defined.

(** X16: whenever [collect_history] returns, its result has exactly the
    keys [history] and [bytes]; a reply without them gives
    "No history found." and [None]. *)
Theorem collect_history_shape (env : Env) (audio_bytes : bytes) (v : value) :
  medical_office_triage_voice_agent.collect_history env audio_bytes = Ok v →
  ∃ data history bytes_,
    http_post env (default "http://coral_medicaloffice:8010/collect-history"
                           (MEDICAL_OFFICE_TRIAGE_API_URL env))
                  (RawBody audio_bytes) = Ok (VDict data) ∧
    v = VDict [("history", history); ("bytes", bytes_)] ∧
    history = default (VStr "No history found.") (dict_get "history" data) ∧
    bytes_ = default VNone (dict_get "bytes" data).
Proof.
  unfold medical_office_triage_voice_agent.collect_history.
  destruct (http_post env _ _) as [[]|]; try discriminate.
  simpl. intros [= <-]. eauto 10.
Qed.

Lemma collect_history_shape_witness :
  ∃ data history bytes_,
    http_post translation_down
      (default "http://coral_medicaloffice:8010/collect-history"
               (MEDICAL_OFFICE_TRIAGE_API_URL translation_down))
      (RawBody []) = Ok (VDict data) ∧
    VDict [("history", VStr "asthma"); ("bytes", VNone)]
      = VDict [("history", history); ("bytes", bytes_)] ∧
    history = default (VStr "No history found.") (dict_get "history" data) ∧
    bytes_ = default VNone (dict_get "bytes" data).
Proof.
  apply (collect_history_shape translation_down []). reflexivity.
Defined.

(** X17: [vital_signs_agent.analyze_vitals] never raises and always
    returns a dict with exactly the keys [stress_level] and [heart_rate];
    when the request fails, or the reply is not a dict, the values are
    "unknown" and 0. *)
Theorem analyze_vitals_always_answers
  (env : Env) (ML_API_URL : option string) (audio_bytes : bytes) :
  let request := http_post env (default "http://localhost:8000/mock-ml-api" ML_API_URL)
                   (RawBody audio_bytes) in
  ∃ stress_level heart_rate,
    vital_signs_agent.analyze_vitals env ML_API_URL audio_bytes =
      Ok (VDict [("stress_level", stress_level); ("heart_rate", heart_rate)]) ∧
    ((∀ d, request ≠ Ok (VDict d)) →
       stress_level = VStr "unknown" ∧ heart_rate = VInt 0) ∧
    (∀ d, request = Ok (VDict d) →
       stress_level = default (VStr "unknown") (dict_get "stress_level" d) ∧
       heart_rate = default (VInt 0) (dict_get "heart_rate" d)).
Proof.
  intros request. subst request. unfold vital_signs_agent.analyze_vitals.
  destruct (http_post env _ _) as [v|e]; [destruct v as [| | | | |d0]|];
    simpl; eexists _, _; (split; [reflexivity|]); split;
    try (intros _; done); try (intros d H; discriminate H).
  - intros H. by destruct (H d0).
  - by intros d [= <-].
Qed.

Lemma analyze_vitals_always_answers_witness :
  vital_signs_agent.analyze_vitals all_down None [] =
    Ok (VDict [("stress_level", VStr "unknown"); ("heart_rate", VInt 0)]).
Proof.
  destruct (analyze_vitals_always_answers all_down None [])
    as (stress_level & heart_rate & Heq & Hfail & _).
  destruct Hfail as [-> ->]; [intros d; discriminate|]. exact Heq.
Defined.

(** X18: the coral agent's [translate_text] never raises: it returns
    either the three keys [translatedText], [source], [target], or a dict
    with the single key [error] holding the text of the exception. *)
Theorem coral_translate_text_never_raises
  (env : Env) (TRANSLATION_API_URL : option string) (text source target : string) :
  ∃ v, translation_coral_agent.translate_text env TRANSLATION_API_URL
         text source target = Ok (VDict v) ∧
       ((∃ translated, v = [("translatedText", translated);
                            ("source", VStr source); ("target", VStr target)]) ∨
        (∃ msg, v = [("error", VStr msg)])).
Proof.
  unfold translation_coral_agent.translate_text.
  destruct (http_post env _ _) as [r|e]; [destruct r|]; simpl; eauto.
Qed.

(** X19: the translation service answers a successful request with the
    single key [translated_text], and a failure of the model with status
    500 and the detail "Translation failed: <cause>". *)
Theorem translation_service_replies
  (gemini : translation_service.Gemini) (req : translation_service.TranslationRequest) :
  (∃ t, translation_service.translate_text gemini req =
          Ok (VDict [("translated_text", VStr t)])) ∨
  (∃ e, translation_service.translate_text gemini req =
          Raise {| translation_service.status_code := 500;
                   translation_service.detail :=
                     "Translation failed: " +:+ exn_str e |}).
Proof.
  unfold translation_service.translate_text.
  destruct (translation_service.generate_text gemini _); eauto.
Qed.

(** X20: the coral agent reads [translatedText] where the service writes
    [translated_text]: handed any successful reply of the translation
    service, it reports the empty string as the translation. *)
Theorem coral_agent_misses_service_translation
  (gemini : translation_service.Gemini) (req : translation_service.TranslationRequest)
  (reply : value) (env : Env) (TRANSLATION_API_URL : option string)
  (text source target : string) :
  translation_service.translate_text gemini req = Ok reply →
  http_post env (default "http://translation_service:8000/translate" TRANSLATION_API_URL)
    (JsonBody (VDict [("text", VStr text); ("source", VStr source);
                      ("target", VStr target)])) = Ok reply →
  translation_coral_agent.translate_text env TRANSLATION_API_URL text source target =
    Ok (VDict [("translatedText", VStr ""); ("source", VStr source);
               ("target", VStr target)]).
Proof.
  unfold translation_service.translate_text, translation_coral_agent.translate_text.
  destruct (translation_service.generate_text gemini _); [|discriminate].
  intros [= <-] ->. reflexivity.
Qed.

Lemma coral_agent_misses_service_translation_witness :
  translation_coral_agent.translate_text served_by_service None "hello" "en" "es" =
    Ok (VDict [("translatedText", VStr ""); ("source", VStr "en");
               ("target", VStr "es")]).
Proof.
  apply (coral_agent_misses_service_translation gemini_hola hello_request
           (VDict [("translated_text", VStr "hola")]));
    reflexivity.
Defined.

End client_extras.

(** ** The backend handlers, further *)

Module backend_extras.
Import agent_orchestrator main main_rest examples more_examples text.
Import orchestrator_claims persistence_claims.

Lemma append_empty (s : string) : s +:+ "" = s.
Proof.
  induction s as [|a s IH]; [done|].
  change (String a (s +:+ "") = String a s). by rewrite IH.
Qed.

Lemma append_snoc (acc : string) (c : ascii) (s : string) :
  (acc +:+ String c "") +:+ s = acc +:+ String c s.
Proof.
  induction acc as [|a acc IH]; [done|].
  change (String a ((acc +:+ String c "") +:+ s) = String a (acc +:+ String c s)).
  by rewrite IH.
Qed.

Lemma last_segment_from_plain (acc s : string) :
  contains_comma s = false → last_segment_from acc s = acc +:+ s.
Proof.
  revert acc. induction s as [|c s IH]; intros acc; cbn.
  - intros _. by rewrite append_empty.
  - destruct (Ascii.eqb c ",") eqn:Hc; [done|]. cbn. intros Hs.
    rewrite IH by done. apply append_snoc.
Qed.

Lemma last_segment_from_prefix (acc prefix s : string) :
  last_segment_from acc (prefix +:+ "," +:+ s) = last_segment_from "" s.
Proof.
  revert acc. induction prefix as [|c p IH]; intros acc; simpl; [done|].
  destruct (Ascii.eqb c ","); apply IH.
Qed.

Lemma last_segment_from_no_comma (acc s : string) :
  contains_comma acc = false →
  contains_comma (last_segment_from acc s) = false.
Proof.
  revert acc. induction s as [|c s IH]; intros acc Hacc; simpl; [done|].
  destruct (Ascii.eqb c ",") eqn:Hc; [by apply IH|].
  apply IH. clear IH. induction acc as [|a acc IHacc]; simpl.
  - by rewrite Hc.
  - simpl in Hacc. apply orb_false_iff in Hacc as [-> Hacc]. by apply IHacc.
Qed.

(** X21: [last_segment], the model of [audio_b64.split(",")[-1]]: the
    result never contains a comma; a text without comma is returned
    whole; and whatever precedes the last comma, a data-URL header for
    one, is cut off. *)
Theorem last_segment_cuts_header (header payload : string) :
  contains_comma (last_segment (header +:+ "," +:+ payload)) = false ∧
  (contains_comma payload = false →
     last_segment payload = payload ∧
     last_segment (header +:+ "," +:+ payload) = payload).
Proof.
  split; [by apply last_segment_from_no_comma|].
  intros Hp. unfold last_segment.
  rewrite last_segment_from_prefix, last_segment_from_plain by done. done.
Qed.

Lemma last_segment_cuts_header_witness :
  last_segment "AAAA" = "AAAA" ∧
  last_segment ("data:audio/wav;base64" +:+ "," +:+ "AAAA") = "AAAA".
Proof.
  apply (last_segment_cuts_header "data:audio/wav;base64" "AAAA"). reflexivity.
Defined.

(** Both outcomes of [conn.close()], with the events read off the goal. *)
Ltac closing_cases be :=
  destruct (close be) as [[]|?];
  eexists _, _; rewrite <- !app_assoc;
  (split; [reflexivity|]); (split; [eauto|done]).

(** X22: with a database configured, [save_triage_log] opens at most one
    connection; a connection that was opened is closed, as the last thing
    done, whether or not the insertion worked; at most one insertion lies
    in between; and a refused connection is followed by nothing. *)
Theorem save_triage_log_closes_connection
  (be : Backend) (user_id language symptoms esi_level agent_responses : value)
  (t : list event) (db_url : string) :
  DATABASE_URL be = Some db_url → db_url ≠ "" →
  ∃ r evs,
    save_triage_log be user_id language symptoms esi_level agent_responses t
      = (r, t ++ evs) ∧
    (connect be db_url = Ok () →
       evs = [DbConnect db_url; DbClose] ∨
       ∃ args, evs = [DbConnect db_url; DbExecute args; DbClose]) ∧
    (∀ e, connect be db_url = Raise e → evs = [DbConnect db_url] ∧ r = Ok ()).
Proof.
  intros Hurl Hne. unfold save_triage_log. rewrite Hurl.
  apply String.eqb_neq in Hne. rewrite Hne.
  unfold mbind, M_bind, try_exceptM, try_finally, emit, lift, mret, M_ret.
  destruct (connect be db_url) as [[]|ec].
  2: { eexists _, _. split; [reflexivity|]. split; [done|]. by intros e [= <-]. }
  destruct (truthy symptoms).
  - destruct (redact_pii be symptoms) as [redacted|er].
    + destruct (json_dumps be agent_responses) as [dumped|ej].
      * destruct (execute be _) as [[]|ex]; closing_cases be.
      * closing_cases be.
    + closing_cases be.
  - destruct (json_dumps be agent_responses) as [dumped|ej].
    + destruct (execute be _) as [[]|ex]; closing_cases be.
    + closing_cases be.
Qed.

Lemma save_triage_log_closes_connection_witness :
  ∃ r evs,
    save_triage_log failing_database VNone (VStr "es") (VStr "dolor") (VInt 2)
      (VDict []) [] = (r, [] ++ evs) ∧
    (evs = [DbConnect "postgres://db/triage"; DbClose] ∨
     ∃ args, evs = [DbConnect "postgres://db/triage"; DbExecute args; DbClose]).
Proof.
  destruct (save_triage_log_closes_connection failing_database VNone (VStr "es")
              (VStr "dolor") (VInt 2) (VDict []) [] "postgres://db/triage")
    as (r & evs & Hsave & Hok & _); [reflexivity|discriminate|].
  exists r, evs. split; [exact Hsave|]. apply Hok. reflexivity.
Defined.





End backend_extras.

Module rest_extras.
Import agent_orchestrator main main_rest examples more_examples.
Import orchestrator_claims persistence_claims.

Section endpoint_facts.
Context (env : Env) (subscript_error : value → exn).

(** The guarded [save_triage_log] of the endpoint never raises. *)
Lemma rest_save_outcome (be : Backend) (triage_result language symptoms aggregated : value)
  (t : list event) :
  ∃ evs,
    try_exceptM
      (esi_level ← lift (py_get triage_result "esi_level" VNone);
       save_triage_log be VNone language symptoms esi_level aggregated)
      (λ _, mret ()) t = (Ok (), t ++ evs) ∧
    forallb is_db_event evs = true.
Proof.
  unfold try_exceptM, mbind, M_bind, lift.
  destruct (py_get triage_result "esi_level" VNone) as [esi_level|e];
    [|exists []; by rewrite app_nil_r].
  destruct (save_triage_log_outcome be VNone language symptoms esi_level aggregated t)
    as (r & evs & Hsave & Hdb & Hr).
  rewrite Hsave. exists evs. split; [|done].
  destruct Hr as [->|(e & -> & _)]; reflexivity.
Qed.

(** What [triage] does, by the outcome of its three unguarded steps. *)
Lemma triage_cases (be : Backend) (symptoms : string) (language : value)
  (t : list event) :
  match analyze_symptoms env (VStr symptoms) language with
  | Raise e => triage env be subscript_error symptoms language t = (Raise e, t)
  | Ok triage_result =>
      match esi_level_item subscript_error triage_result with
      | Raise e => triage env be subscript_error symptoms language t = (Raise e, t)
      | Ok esi =>
          match translation_coordinator_agent.translate_medical env
                  ("ESI Level: " +:+ format_value env esi) language with
          | Raise e =>
              triage env be subscript_error symptoms language t = (Raise e, t)
          | Ok translation =>
              ∃ evs,
                triage env be subscript_error symptoms language t =
                  (Ok (VDict [("voice", VDict [("text", VStr symptoms);
                                               ("language", language);
                                               ("panic", VBool false)]);
                              ("triage", triage_result);
                              ("translation", translation);
                              ("history", VDict [("history", VStr "No audio provided.")]);
                              ("vitals", VDict [("stress_level", VStr "unknown");
                                                ("heart_rate", VInt 0)]);
                              ("dispatch", dispatch);
                              ("insurance", VDict [("verified", VBool false);
                                                   ("provider", VStr "Unknown")])]),
                   t ++ evs) ∧
                forallb is_db_event evs = true
          end
      end
  end.
Proof.
  unfold triage, mbind, M_bind, lift.
  destruct (analyze_symptoms env (VStr symptoms) language) as [tr|e];
    [|reflexivity].
  destruct (esi_level_item subscript_error tr) as [esi|e]; [|reflexivity].
  destruct (translation_coordinator_agent.translate_medical env _ language)
    as [translation|e]; [|reflexivity].
  cbv zeta.
  destruct (rest_save_outcome be tr language (VStr symptoms)
              (VDict [("voice", VDict [("text", VStr symptoms);
                                       ("language", language);
                                       ("panic", VBool false)]);
                      ("triage", tr); ("translation", translation);
                      ("history", VDict [("history", VStr "No audio provided.")]);
                      ("vitals", VDict [("stress_level", VStr "unknown");
                                        ("heart_rate", VInt 0)]);
                      ("dispatch", dispatch);
                      ("insurance", VDict [("verified", VBool false);
                                           ("provider", VStr "Unknown")])]) t)
    as (evs & Hsave & Hdb).
  exists evs. split; [|done].
  unfold mbind, M_bind, lift, dispatch in Hsave. rewrite Hsave. reflexivity.
Qed.

End endpoint_facts.


(** X26: the REST endpoint has no fallbacks: an exception of the triage
    provider, a triage answer without [esi_level] (a [KeyError]) and an
    exception of the translation client each leave [triage] as they are,
    before anything is written. *)
Theorem rest_triage_propagates_failures
  (env : Env) (be : Backend) (subscript_error : value → exn)
  (symptoms : string) (language : value) (t : list event) :
  (∀ e, analyze_symptoms env (VStr symptoms) language = Raise e →
     triage env be subscript_error symptoms language t = (Raise e, t)) ∧
  (∀ d, analyze_symptoms env (VStr symptoms) language = Ok (VDict d) →
     dict_get "esi_level" d = None →
     triage env be subscript_error symptoms language t =
       (Raise (Exn "KeyError" "'esi_level'"), t)) ∧
  (∀ triage_result esi e,
     analyze_symptoms env (VStr symptoms) language = Ok triage_result →
     esi_level_item subscript_error triage_result = Ok esi →
     translation_coordinator_agent.translate_medical env
       ("ESI Level: " +:+ format_value env esi) language = Raise e →
     triage env be subscript_error symptoms language t = (Raise e, t)).
Proof.
  pose proof (triage_cases env subscript_error be symptoms language t) as Hcases.
  repeat split.
  - intros e He. by rewrite He in Hcases.
  - intros d Hd Hnone. rewrite Hd in Hcases. simpl in Hcases.
    by rewrite Hnone in Hcases.
  - intros tr esi e Htr Hesi He. by rewrite Htr, Hesi, He in Hcases.
Qed.

Lemma rest_triage_propagates_failures_witness :
  triage all_down undecodable not_subscriptable "dolor" (VStr "es") [] =
    (Raise timed_out, []).
Proof.
  destruct (rest_triage_propagates_failures all_down undecodable not_subscriptable
              "dolor" (VStr "es") []) as (Hfail & _).
  apply Hfail. reflexivity.
Defined.

(** X27: what the REST endpoint returns or raises does not depend on the
    database: any two backends give the same outcome. *)
Theorem rest_triage_ignores_persistence
  (env : Env) (be1 be2 : Backend) (subscript_error : value → exn)
  (symptoms : string) (language : value) (t : list event) :
  (triage env be1 subscript_error symptoms language t).1 =
  (triage env be2 subscript_error symptoms language t).1.
Proof.
  pose proof (triage_cases env subscript_error be1 symptoms language t) as H1.
  pose proof (triage_cases env subscript_error be2 symptoms language t) as H2.
  destruct (analyze_symptoms env (VStr symptoms) language) as [tr|e];
    [|by rewrite H1, H2].
  destruct (esi_level_item subscript_error tr) as [esi|e]; [|by rewrite H1, H2].
  destruct (translation_coordinator_agent.translate_medical env _ language)
    as [translation|e]; [|by rewrite H1, H2].
  destruct H1 as (evs1 & -> & _). destruct H2 as (evs2 & -> & _). done.
Qed.

End rest_extras.
